(** * The state reducer of bonsai (src/utils/reducer.js)

    A shallow embedding of [handleAction], [calculateFullModuleData] and
    [reducer], together with the part of the JavaScript object store they
    touch.  Objects whose identity the reducer compares with [===] (the
    [json] table, the [blacklistedModuleIds] array, the derived module data)
    or which it mutates in place (the [expandedRecords] [Set]) live in a
    store and are held by reference; plain records that are only ever copied
    ([dataPaths], [sort], [filters]) are held by value, and so is the state
    object itself, whose fields are never assigned.  An object used as a
    map is a finite map of its own properties; reading a property of it
    also finds the properties inherited from [Object.prototype]. *)

From Stdlib Require Import ZArith String.
From stdpp Require Import base option list gmap strings.

Local Open Scope string_scope.
Local Open Scope list_scope.
#[local] Set Warnings "-clear-no-such-hyp".

(** ** JavaScript values *)

(** The numbers that an identifier can be: a JavaScript number other than
    [NaN], with [+0] and [-0] taken as one, so that equality is [===] as
    well as the membership test of a [Set].  [Number_toString] is
    [String(n)] on them; nothing is assumed about the notation it gives. *)
Class JsNumbers : Type := {
  Number : Type;
  Number_eq_dec : EqDecision Number;
  Number_countable : Countable Number;
  Number_toString : Number -> string;
}.

#[global] Existing Instance Number_eq_dec.
#[global] Existing Instance Number_countable.

(** Modelled from the spec: the types [ModuleID] and [ChunkID] are
    declared in types/Stats, which reducer.js only imports.  The spec calls
    them identifiers that are normalised to text, and the reducer does so
    with [String(...)]: they are taken to be JavaScript primitives, a
    string or a number.  [===] on them is equality of the constructor and
    its payload. *)
Inductive JsId `{JsNumbers} : Type :=
  | IdNum (n : Number)
  | IdStr (s : string).

Definition ModuleID `{JsNumbers} : Type := JsId.
Definition ChunkID `{JsNumbers} : Type := JsId.

#[global] Instance JsId_eq_dec `{JsNumbers} : EqDecision JsId.
Proof. solve_decision. Defined.

#[global] Instance JsId_countable `{JsNumbers} : Countable JsId.
Proof.
  refine (inj_countable'
    (fun v => match v with IdNum n => inl n | IdStr s => inr s end)
    (fun x => match x with inl n => IdNum n | inr s => IdStr s end) _).
  by intros [].
Defined.

(** [String(v)] on an identifier: a string is itself. *)
Definition js_String `{JsNumbers} (v : JsId) : string :=
  match v with
  | IdNum n => Number_toString n
  | IdStr s => s
  end.

(** Truthiness of a value of type [?string]: [null], [undefined] and the
    empty string are falsy. *)
Definition truthy (v : option string) : bool :=
  match v with
  | Some s => bool_decide (s ≠ "")
  | None => false
  end.

(** [type DataPathState = 'unknown' | 'loading' | 'error' | 'ready'] *)
Inductive DataPathState : Type := unknown | loading | error | ready.

#[global] Instance DataPathState_eq_dec : EqDecision DataPathState.
Proof. solve_decision. Defined.

(** The [expandMode] field: ['manual' | 'expand-all' | 'collapse-all']. *)
Inductive ExpandMode : Type := manual | expand_all | collapse_all.

#[global] Instance ExpandMode_eq_dec : EqDecision ExpandMode.
Proof. solve_decision. Defined.

(** [SortProps]: a field name and a direction ['ASC' | 'DESC']. *)
Inductive Direction : Type := ASC | DESC.

#[global] Instance Direction_eq_dec : EqDecision Direction.
Proof. solve_decision. Defined.

Record SortProps : Type := mkSort {
  field : string;
  direction : Direction;
}.

#[global] Instance SortProps_eq_dec : EqDecision SortProps.
Proof. solve_decision. Defined.

(** ** Plain objects used as maps

    [dataPaths] and [json] are plain objects whose prototype is
    [Object.prototype].  A read [obj[key]] gives the own property of that
    name if there is one, and otherwise the property of that name that
    [Object.prototype] has, if any. *)

(** What is found where a value of type [A] is expected: such a value, or
    the value of a property of [Object.prototype] (a function, or
    [Object.prototype] itself for ['__proto__']), named by the property.
    All of these are truthy, and none of the latter is [===] to a
    string. *)
Inductive Value (A : Type) : Type :=
  | value (a : A)
  | prototype_value (name : string).

Arguments value {A} a.
Arguments prototype_value {A} name.

#[global] Instance Value_eq_dec {A} `{EqDecision A} : EqDecision (Value A).
Proof. solve_decision. Defined.

(** The names of the properties of [Object.prototype]. *)
Definition Object_prototype : list string :=
  ["constructor"; "hasOwnProperty"; "isPrototypeOf"; "propertyIsEnumerable";
   "toLocaleString"; "toString"; "valueOf"; "__proto__";
   "__defineGetter__"; "__defineSetter__"; "__lookupGetter__";
   "__lookupSetter__"].

Definition inherited (name : string) : bool :=
  bool_decide (name ∈ Object_prototype).

(** The read [obj[key]] on a plain object whose own properties hold
    values of type [A], seen as values through [own]. *)
Definition property {A B} (own : A -> Value B) (obj : gmap string A)
    (key : string) : option (Value B) :=
  match obj !! key with
  | Some a => Some (own a)
  | None => if inherited key then Some (prototype_value key) else None
  end.

(** References into the object store. *)
Definition loc : Type := positive.

(** ** The modules imported by the reducer

    [stats/fullModuleData], [stats/getModulesById],
    [stats/getCollapsableParentOf] and the types of [types/Stats] are
    imported by reducer.js; the reducer is generic in them.  They are
    taken as pure functions of the values they are given: they change no
    object of the state, and [fullModuleData] returns a new object.
    [fullModuleData] is given whatever the read [json[selectedFilename]]
    finds, a document or a value inherited from [Object.prototype]. *)
Class StatsModules `{JsNumbers} : Type := {
  RawStats : Type;
  FullModuleDataType : Type;
  ExtendedModule : Type;
  ModulesById : Type;
  (** the [id] property of a module record *)
  module_id : ExtendedModule -> ModuleID;
  (** the [extendedModules] property, an array of module records; [None]
      when it is falsy *)
  extendedModules : FullModuleDataType -> option (list ExtendedModule);
  fullModuleData :
    Value RawStats -> option ChunkID -> list ModuleID -> FullModuleDataType;
  getModulesById : list ExtendedModule -> ModulesById;
  getCollapsableParentOf : ModulesById -> string -> option ExtendedModule;
}.

Section Reducer.

Context {JN : JsNumbers} {SM : StatsModules}.

(** ** The object store *)

(** One table per kind of object; a reference is an index into the table
    of its kind.  [derivations] is the trace of the calls made to
    [fullModuleData], oldest first. *)
Record World : Type := mkWorld {
  sets : gmap loc (gset ModuleID);
  arrays : gmap loc (list ModuleID);
  tables : gmap loc (gmap string RawStats);
  fmds : gmap loc FullModuleDataType;
  derivations : list (Value RawStats * option ChunkID * list ModuleID);
}.

(** Reading through a reference.  References held by a well-formed state
    are always allocated; one that is not reads as the empty object. *)
Definition read_set (w : World) (r : loc) : gset ModuleID :=
  default ∅ (sets w !! r).
Definition read_array (w : World) (r : loc) : list ModuleID :=
  default [] (arrays w !! r).
Definition read_table (w : World) (r : loc) : gmap string RawStats :=
  default ∅ (tables w !! r).
Definition read_fmd (w : World) (r : loc) : option FullModuleDataType :=
  fmds w !! r.

(** Computations that read and update the store. *)
Definition M (A : Type) : Type := World -> A * World.

#[global] Instance M_ret : MRet M := fun A a w => (a, w).
#[global] Instance M_bind : MBind M :=
  fun A B f m w => let '(a, w') := m w in f a w'.

Definition with_sets (f : gmap loc (gset ModuleID)) (w : World) : World :=
  mkWorld f (arrays w) (tables w) (fmds w) (derivations w).
Definition with_arrays (f : gmap loc (list ModuleID)) (w : World) : World :=
  mkWorld (sets w) f (tables w) (fmds w) (derivations w).
Definition with_tables (f : gmap loc (gmap string RawStats)) (w : World)
  : World :=
  mkWorld (sets w) (arrays w) f (fmds w) (derivations w).

(** [new Set(iterable)] *)
Definition newSet (elems : gset ModuleID) : M loc := fun w =>
  let r := fresh (dom (sets w)) in
  (r, with_sets (<[r := elems]> (sets w)) w).

(** [s.add(x)]: updates the set in place and returns the same set. *)
Definition setAdd (r : loc) (x : ModuleID) : M loc := fun w =>
  (r, with_sets (<[r := {[x]} ∪ read_set w r]> (sets w)) w).

(** [s.delete(x)]: updates the set in place. *)
Definition setDelete (r : loc) (x : ModuleID) : M unit := fun w =>
  (tt, with_sets (<[r := read_set w r ∖ {[x]}]> (sets w)) w).

(** The elements of a set, as read by [new Set(s)]. *)
Definition setElements (r : loc) : M (gset ModuleID) := fun w =>
  (read_set w r, w).

(** [s.size] *)
Definition setSize (r : loc) : M nat := fun w =>
  (size (read_set w r), w).

(** An array literal or the result of [Array.prototype.filter]. *)
Definition newArray (l : list ModuleID) : M loc := fun w =>
  let r := fresh (dom (arrays w)) in
  (r, with_arrays (<[r := l]> (arrays w)) w).

Definition arrayElements (r : loc) : M (list ModuleID) := fun w =>
  (read_array w r, w).

(** An object literal used as the [json] table. *)
Definition newTable (t : gmap string RawStats) : M loc := fun w =>
  let r := fresh (dom (tables w)) in
  (r, with_tables (<[r := t]> (tables w)) w).

Definition tableEntries (r : loc) : M (gmap string RawStats) := fun w =>
  (read_table w r, w).

(** [data && data.extendedModules] for the nullable reference [data] to
    the derived module data. *)
Definition extendedModulesOf (data : option loc)
  : M (option (list ExtendedModule)) := fun w =>
  (match data with
   | Some r =>
       match read_fmd w r with
       | Some d => extendedModules d
       | None => None
       end
   | None => None
   end, w).

(** A call [fullModuleData(stats, chunkId, blacklist)]: the call is
    recorded and its result is a new object. *)
Definition callFullModuleData (stats : Value RawStats)
    (chunkId : option ChunkID)
    (blacklist : list ModuleID) : M loc := fun w =>
  let r := fresh (dom (fmds w)) in
  (r, mkWorld (sets w) (arrays w) (tables w)
        (<[r := fullModuleData stats chunkId blacklist]> (fmds w))
        (derivations w ++ [(stats, chunkId, blacklist)])).

(** ** [State] and [Action] *)

Record State : Type := mkState {
  dataPaths : gmap string (Value DataPathState);
  selectedFilename : option string;
  selectedChunkId : option ChunkID;
  blacklistedModuleIds : loc;
  json : loc;
  sort : SortProps;
  filters : gmap string string;
  expandMode : ExpandMode;
  expandedRecords : loc;
  currentlyFocusedElementID : option string;
  calculatedFullModuleData : option loc;
}.

(** The union type [Action]; [otherAction] stands for an action whose
    [type] is none of the fourteen of the catalogue. *)
Inductive Action : Type :=
  | discoveredDataPaths (paths : list string)
  | pickDataPath (path : string)
  | requestedDataAtPath (path : string)
  | loadedStatsAtPath (path : string) (stats : RawStats)
  | erroredAtPath (path : string) (err : string)
  | onSorted (fld : string)
  | onFiltered (changes : gmap string string)
  | onPickedChunk (chunkId : ChunkID)
  | onRemoveModule (moduleID : ModuleID)
  | onIncludeModule (moduleID : ModuleID)
  | changeExpandRecordsMode (mode : ExpandMode)
  | onExpandRecords (moduleID : ModuleID)
  | onCollapseRecords (moduleID : ModuleID)
  | onFocusChanged (elementID : option string)
  | otherAction (type : string).

(** Object spread [{...state, f: v}] for each field that is overridden. *)
Definition set_dataPaths (v : gmap string (Value DataPathState)) (s : State)
  : State :=
  mkState v (selectedFilename s) (selectedChunkId s) (blacklistedModuleIds s)
    (json s) (sort s) (filters s) (expandMode s) (expandedRecords s)
    (currentlyFocusedElementID s) (calculatedFullModuleData s).
Definition set_selectedFilename (v : option string) (s : State) : State :=
  mkState (dataPaths s) v (selectedChunkId s) (blacklistedModuleIds s)
    (json s) (sort s) (filters s) (expandMode s) (expandedRecords s)
    (currentlyFocusedElementID s) (calculatedFullModuleData s).
Definition set_selectedChunkId (v : option ChunkID) (s : State) : State :=
  mkState (dataPaths s) (selectedFilename s) v (blacklistedModuleIds s)
    (json s) (sort s) (filters s) (expandMode s) (expandedRecords s)
    (currentlyFocusedElementID s) (calculatedFullModuleData s).
Definition set_blacklistedModuleIds (v : loc) (s : State) : State :=
  mkState (dataPaths s) (selectedFilename s) (selectedChunkId s) v
    (json s) (sort s) (filters s) (expandMode s) (expandedRecords s)
    (currentlyFocusedElementID s) (calculatedFullModuleData s).
Definition set_json (v : loc) (s : State) : State :=
  mkState (dataPaths s) (selectedFilename s) (selectedChunkId s)
    (blacklistedModuleIds s) v (sort s) (filters s) (expandMode s)
    (expandedRecords s) (currentlyFocusedElementID s)
    (calculatedFullModuleData s).
Definition set_sort (v : SortProps) (s : State) : State :=
  mkState (dataPaths s) (selectedFilename s) (selectedChunkId s)
    (blacklistedModuleIds s) (json s) v (filters s) (expandMode s)
    (expandedRecords s) (currentlyFocusedElementID s)
    (calculatedFullModuleData s).
Definition set_filters (v : gmap string string) (s : State) : State :=
  mkState (dataPaths s) (selectedFilename s) (selectedChunkId s)
    (blacklistedModuleIds s) (json s) (sort s) v (expandMode s)
    (expandedRecords s) (currentlyFocusedElementID s)
    (calculatedFullModuleData s).
Definition set_expandMode (v : ExpandMode) (s : State) : State :=
  mkState (dataPaths s) (selectedFilename s) (selectedChunkId s)
    (blacklistedModuleIds s) (json s) (sort s) (filters s) v
    (expandedRecords s) (currentlyFocusedElementID s)
    (calculatedFullModuleData s).
Definition set_expandedRecords (v : loc) (s : State) : State :=
  mkState (dataPaths s) (selectedFilename s) (selectedChunkId s)
    (blacklistedModuleIds s) (json s) (sort s) (filters s) (expandMode s)
    v (currentlyFocusedElementID s) (calculatedFullModuleData s).
Definition set_currentlyFocusedElementID (v : option string) (s : State)
  : State :=
  mkState (dataPaths s) (selectedFilename s) (selectedChunkId s)
    (blacklistedModuleIds s) (json s) (sort s) (filters s) (expandMode s)
    (expandedRecords s) v (calculatedFullModuleData s).
Definition set_calculatedFullModuleData (v : option loc) (s : State)
  : State :=
  mkState (dataPaths s) (selectedFilename s) (selectedChunkId s)
    (blacklistedModuleIds s) (json s) (sort s) (filters s) (expandMode s)
    (expandedRecords s) (currentlyFocusedElementID s) v.

(** ** [handleAction] *)

(** The callback of [action.paths.reduce(..., {})]:
    [map[path] = map[path] || 'unknown'].  The assignment makes an own
    property, except for ['__proto__'] when it is not one: that name is
    then the accessor of [Object.prototype], which the read answers with
    [Object.prototype] and whose setter, given this value back, leaves the
    object as it is. *)
Definition discover (map : gmap string (Value DataPathState))
    (path : string) : gmap string (Value DataPathState) :=
  let found := default (value unknown) (property id map path) in
  if decide (path = "__proto__" ∧ map !! path = None)
  then map
  else <[path := found]> map.

Definition discovered (paths : list string)
  : gmap string (Value DataPathState) :=
  foldl discover ∅ paths.

(** What the callback leaves under a path that the object does not have
    as its own: nothing for ['__proto__'], the inherited value for another
    name of [Object.prototype], and ['unknown'] for any other path. *)
Definition discovered_status (path : string)
  : option (Value DataPathState) :=
  if decide (path = "__proto__") then None
  else Some (if inherited path then prototype_value path else value unknown).

Definition handleAction (state : State) (action : Action) : M State :=
  match action with
  | discoveredDataPaths paths =>
      mret (set_dataPaths (dataPaths state ∪ discovered paths) state)
  | pickDataPath path =>
      blacklist ← newArray [];
      expanded ← newSet ∅;
      mret (set_dataPaths
              (dataPaths state
                 ∪ {[path := default (value unknown)
                               (property id (dataPaths state) path)]})
           (set_selectedFilename (Some path)
           (set_selectedChunkId None
           (set_blacklistedModuleIds blacklist
           (set_expandMode collapse_all
           (set_expandedRecords expanded
           (set_currentlyFocusedElementID None state)))))))
  | requestedDataAtPath path =>
      mret (set_dataPaths
              (<[path := if decide (property id (dataPaths state) path
                                    = Some (value ready))
                         then value ready else value loading]>
                 (dataPaths state))
              state)
  | loadedStatsAtPath path stats =>
      old ← tableEntries (json state);
      table ← newTable (<[path := stats]> old);
      mret (set_dataPaths (<[path := value ready]> (dataPaths state))
           (set_json table state))
  | erroredAtPath path _ =>
      mret (set_dataPaths (<[path := value error]> (dataPaths state)) state)
  | onSorted fld =>
      let isSameField := bool_decide (field (sort state) = fld) in
      let invertedDir :=
        if decide (direction (sort state) = ASC) then DESC else ASC in
      let nextDirection := if isSameField then invertedDir else DESC in
      mret (set_sort (mkSort fld nextDirection) state)
  | onFiltered changes =>
      mret (set_filters (changes ∪ filters state) state)
  | onPickedChunk chunkId =>
      blacklist ← newArray [];
      expanded ← newSet ∅;
      mret (set_selectedChunkId (Some (IdStr (js_String chunkId)))
           (set_blacklistedModuleIds blacklist
           (set_expandMode collapse_all
           (set_expandedRecords expanded
           (set_currentlyFocusedElementID None state)))))
  | onRemoveModule moduleID =>
      old ← arrayElements (blacklistedModuleIds state);
      blacklist ← newArray (old ++ [moduleID]);
      mret (set_blacklistedModuleIds blacklist state)
  | onIncludeModule moduleID =>
      old ← arrayElements (blacklistedModuleIds state);
      blacklist ←
        newArray (filter (fun id => js_String id ≠ js_String moduleID) old);
      mret (set_blacklistedModuleIds blacklist state)
  | changeExpandRecordsMode mode =>
      mret (set_expandMode mode state)
  | onExpandRecords moduleID =>
      added ← setAdd (expandedRecords state) moduleID;
      elems ← setElements added;
      expanded ← newSet elems;
      mret (set_expandMode manual (set_expandedRecords expanded state))
  | onCollapseRecords moduleID =>
      elems ← setElements (expandedRecords state);
      expanded ← newSet elems;
      _ ← setDelete expanded moduleID;
      oldSize ← setSize (expandedRecords state);
      mret (set_expandMode
              (if decide (oldSize = 0) then collapse_all else manual)
           (set_expandedRecords expanded state))
  | onFocusChanged elementID =>
      extended ← extendedModulesOf (calculatedFullModuleData state);
      match (if truthy elementID then elementID else None), extended with
      | Some moduleId, Some extended =>
          let modulesById := getModulesById extended in
          let collapseableParent :=
            getCollapsableParentOf modulesById moduleId in
          match collapseableParent with
          | Some parent =>
              added ← setAdd (expandedRecords state) (module_id parent);
              elems ← setElements added;
              expanded ← newSet elems;
              mret (set_expandMode manual
                   (set_expandedRecords expanded
                   (set_currentlyFocusedElementID elementID state)))
          | None =>
              mret (set_currentlyFocusedElementID elementID state)
          end
      | _, _ => mret (set_currentlyFocusedElementID elementID state)
      end
  | otherAction _ => mret state
  end.

(** ** [calculateFullModuleData] and [reducer] *)

(** [newState.json[newState.selectedFilename]] behind the guard
    [!newState.selectedFilename]: what the read finds for the selected
    file, if a file is selected: the document stored under that name or,
    without one, the value inherited under it.  ([newState.json] is an
    object reference and is never falsy; documents and inherited values
    are truthy.) *)
Definition selected_document (table : gmap string RawStats)
    (selected : option string) : option (Value RawStats) :=
  match selected with
  | Some filename =>
      if truthy selected then property value table filename else None
  | None => None
  end.

Definition calculateFullModuleData (oldState newState : State) : M State :=
  table ← tableEntries (json newState);
  match selected_document table (selectedFilename newState) with
  | None => mret (set_calculatedFullModuleData None newState)
  | Some stats =>
      if decide (json oldState = json newState
                 ∧ selectedFilename oldState = selectedFilename newState
                 ∧ selectedChunkId oldState = selectedChunkId newState
                 ∧ blacklistedModuleIds oldState
                   = blacklistedModuleIds newState)
      then mret newState
      else
        blacklist ← arrayElements (blacklistedModuleIds newState);
        data ← callFullModuleData stats (selectedChunkId newState) blacklist;
        mret (set_calculatedFullModuleData (Some data) newState)
  end.

(** The objects created when the module is loaded: the empty array, the
    empty table and the [new Set()] of [INITIAL_STATE]. *)
Definition initial_world : World :=
  mkWorld {[1%positive := ∅]} {[1%positive := []]} {[1%positive := ∅]} ∅ [].

Definition INITIAL_STATE : State :=
  mkState ∅ None None 1%positive 1%positive
    (mkSort "cumulativeSize" DESC)
    (list_to_map
       [("moduleName", ""); ("cumulativeSizeMin", "");
        ("cumulativeSizeMax", ""); ("requiredByCountMin", "");
        ("requiredByCountMax", ""); ("requirementsCountMin", "");
        ("requirementsCountMax", "")])
    collapse_all 1%positive None None.

(** [reducer(state = INITIAL_STATE, action)]: [None] is a call with
    [undefined] for the state. *)
Definition reducer (state : option State) (action : Action) : M State :=
  let state := default INITIAL_STATE state in
  newState ← handleAction state action;
  calculateFullModuleData state newState.

(** ** Observations on a state *)

(** The document the derivation of a state reads. *)
Definition document (w : World) (s : State) : option (Value RawStats) :=
  selected_document (read_table w (json s)) (selectedFilename s).

(** Every reference of the state is allocated. *)
Definition wf_state (w : World) (s : State) : Prop :=
  blacklistedModuleIds s ∈ dom (arrays w)
  ∧ json s ∈ dom (tables w)
  ∧ expandedRecords s ∈ dom (sets w)
  ∧ ∀ r, calculatedFullModuleData s = Some r → r ∈ dom (fmds w).

(** The derived data of the state is what [fullModuleData] gives on its
    document, chunk and blacklist, and is [null] without a document. *)
Definition derived (w : World) (s : State) : Prop :=
  match document w s with
  | None => calculatedFullModuleData s = None
  | Some stats =>
      ∃ r, calculatedFullModuleData s = Some r
           ∧ read_fmd w r
             = Some (fullModuleData stats (selectedChunkId s)
                       (read_array w (blacklistedModuleIds s)))
  end.

(** The derived data by value: [None] for [null]. *)
Definition derived_value (w : World) (s : State)
  : option FullModuleDataType :=
  calculatedFullModuleData s ≫= read_fmd w.

(** The derived data has a record for the module. *)
Definition in_tree (data : FullModuleDataType) (m : ModuleID) : Prop :=
  ∃ (records : list ExtendedModule) (record : ExtendedModule),
    extendedModules data = Some records
    ∧ record ∈ records
    ∧ module_id record = m.

(** The state as a value: every field, with the referenced objects read
    from the store. *)
Definition state_value (w : World) (s : State) :=
  (dataPaths s, selectedFilename s, selectedChunkId s,
   read_array w (blacklistedModuleIds s), read_table w (json s),
   sort s, filters s, expandMode s, read_set w (expandedRecords s),
   currentlyFocusedElementID s, derived_value w s).

(** The argument of the call [state.expandedRecords.add(...)] in the
    branch of [handleAction] that the action takes, if that branch has
    one: [onExpandRecords], and [onFocusChanged] when a collapsible parent
    is found. *)
Definition added_record (w : World) (s : State) (a : Action)
  : option ModuleID :=
  match a with
  | onExpandRecords moduleID => Some moduleID
  | onFocusChanged elementID =>
      match (if truthy elementID then elementID else None),
            (extendedModulesOf (calculatedFullModuleData s) w).1 with
      | Some moduleId, Some extended =>
          module_id
            <$> getCollapsableParentOf (getModulesById extended) moduleId
      | _, _ => None
      end
  | _ => None
  end.

(** The states met when the reducer is driven from [INITIAL_STATE]. *)
Inductive reachable : World -> State -> Prop :=
  | reachable_initial : reachable initial_world INITIAL_STATE
  | reachable_step w s a :
      reachable w s ->
      reachable (reducer (Some s) a w).2 (reducer (Some s) a w).1.

(** The actions whose branch of [handleAction] builds a new blacklist
    array or a new [json] table. *)
Definition replaces_input (a : Action) : bool :=
  match a with
  | pickDataPath _ | loadedStatsAtPath _ _ | onPickedChunk _
  | onRemoveModule _ | onIncludeModule _ => true
  | _ => false
  end.

(** A sequence of actions dispatched one after the other. *)
Definition dispatch (actions : list Action) (s : State) (w : World)
  : State * World :=
  foldl (fun sw a => reducer (Some sw.1) a sw.2) (s, w) actions.

End Reducer.

(** ** A small instance of the imported modules

    A document is a list of module records, each with an identifier and
    the identifier of its parent in the tree.  The derivation keeps the
    records whose identifier is not excluded, and finds no record in a
    value that is not a document; the collapsible parent of a record is
    the record of its parent.  It stands in for the modules of
    [stats/] when the reducer is run on concrete inputs. *)
Module Fixture.

(** The numbers 0 to 3, with the text [String] gives for each. *)
Inductive number : Set := n0 | n1 | n2 | n3.

#[global] Instance number_eq_dec : EqDecision number.
Proof. solve_decision. Defined.

Definition number_index (n : number) : nat :=
  match n with n0 => 0 | n1 => 1 | n2 => 2 | n3 => 3 end.

Definition number_at (k : nat) : number :=
  match k with 0 => n0 | 1 => n1 | 2 => n2 | _ => n3 end.

#[global] Instance number_countable : Countable number.
Proof.
  refine (inj_countable' number_index number_at _).
  by intros [].
Defined.

Definition number_toString (n : number) : string :=
  match n with n0 => "0" | n1 => "1" | n2 => "2" | n3 => "3" end.

#[global] Instance numbers : JsNumbers := {|
  Number := number;
  Number_eq_dec := _;
  Number_countable := _;
  Number_toString := number_toString;
|}.

Record module : Type := mkModule {
  m_id : ModuleID;
  m_parent : option ModuleID;
}.

Definition lookup_module (ms : list module) (id : string) : option module :=
  head (filter (fun m => js_String (m_id m) = id) ms).

Definition keep (blacklist : list ModuleID) (ms : list module) : list module :=
  filter (fun m => js_String (m_id m) ∉ js_String <$> blacklist) ms.

#[global] Instance modules : StatsModules := {|
  RawStats := list module;
  FullModuleDataType := list module;
  ExtendedModule := module;
  ModulesById := list module;
  module_id := m_id;
  extendedModules := Some;
  fullModuleData := fun stats _ blacklist =>
    match stats with
    | value records => keep blacklist records
    | prototype_value _ => []
    end;
  getModulesById := fun ms => ms;
  getCollapsableParentOf := fun ms id =>
    m ← lookup_module ms id;
    p ← m_parent m;
    lookup_module ms (js_String p);
|}.

Definition doc : @RawStats _ modules :=
  [mkModule (IdNum n0) None; mkModule (IdNum n1) (Some (IdNum n0));
   mkModule (IdStr "lib") (Some (IdNum n1))].

(** Running a list of actions from a state. *)
Definition run (actions : list Action) (s : State) (w : World)
  : State * World :=
  foldl (fun sw a => reducer (Some sw.1) a sw.2) (s, w) actions.

(** A file picked and its document loaded. *)
Definition loaded : State * World :=
  run [pickDataPath "stats.json"; loadedStatsAtPath "stats.json" doc]
      INITIAL_STATE initial_world.

(** Two records expanded by hand. *)
Definition expanded : State * World :=
  run [onExpandRecords (IdStr "a"); onExpandRecords (IdStr "b")]
      INITIAL_STATE initial_world.

End Fixture.

(** * Properties *)

Section Properties.

Context {JN : JsNumbers} {SM : StatsModules}.

Implicit Types (s : State) (w : World) (a : Action).

(** Unfolding of the store operations, and reduction of the projections
    of states and stores (leaving the operations on maps and sets alone). *)
Ltac unfold_store :=
  unfold mbind, M_bind, mret, M_ret, newSet, setAdd, setDelete, setElements,
    setSize, newArray, arrayElements, newTable, tableEntries, extendedModulesOf,
    callFullModuleData in *.

Ltac reduce_fields :=
  cbn [fst snd default from_option id
       sets arrays tables fmds derivations with_sets with_arrays with_tables
       dataPaths selectedFilename selectedChunkId blacklistedModuleIds json
       sort filters expandMode expandedRecords currentlyFocusedElementID
       calculatedFullModuleData field direction
       set_dataPaths set_selectedFilename set_selectedChunkId
       set_blacklistedModuleIds set_json set_sort set_filters set_expandMode
       set_expandedRecords set_currentlyFocusedElementID
       set_calculatedFullModuleData] in *.

(** ** The post-processing step *)

(** [calculateFullModuleData] only ever replaces the derived data, and
    touches no set, array or table. *)
Lemma calculate_frame (old new : State) w :
  let r := calculateFullModuleData old new w in
  r.1 = set_calculatedFullModuleData (calculatedFullModuleData r.1) new
  ∧ sets r.2 = sets w ∧ arrays r.2 = arrays w ∧ tables r.2 = tables w.
Proof.
  unfold calculateFullModuleData. unfold_store. simpl.
  destruct (selected_document _ _); [case_decide|]; simpl; by destruct new.
Qed.

(** The three branches of [calculateFullModuleData]. *)
Lemma calculate_cases (old new : State) w :
  let r := calculateFullModuleData old new w in
  match selected_document (read_table w (json new)) (selectedFilename new) with
  | None => r = (set_calculatedFullModuleData None new, w)
  | Some stats =>
      if decide (json old = json new
                 ∧ selectedFilename old = selectedFilename new
                 ∧ selectedChunkId old = selectedChunkId new
                 ∧ blacklistedModuleIds old = blacklistedModuleIds new)
      then r = (new, w)
      else
        let fresh_r := fresh (dom (fmds w)) in
        r.1 = set_calculatedFullModuleData (Some fresh_r) new
        ∧ fmds r.2
          = <[fresh_r := fullModuleData stats (selectedChunkId new)
                           (read_array w (blacklistedModuleIds new))]> (fmds w)
        ∧ derivations r.2
          = (derivations w
             ++ [(stats, selectedChunkId new,
                  read_array w (blacklistedModuleIds new))])%list
  end.
Proof.
  unfold calculateFullModuleData. unfold_store. simpl.
  destruct (selected_document _ _); [case_decide|]; done.
Qed.

(** A newly allocated reference is not in use. *)
Lemma fresh_lookup {A} (m : gmap loc A) : m !! fresh (dom m) = None.
Proof. apply not_elem_of_dom, is_fresh. Qed.

Lemma fresh_ne {A} (m : gmap loc A) (r : loc) :
  r ∈ dom m -> fresh (dom m) ≠ r.
Proof. intros Hr <-. by apply is_fresh in Hr. Qed.

(** The reducer returns what [handleAction] returns, up to the derived
    data; sets, arrays and tables are those [handleAction] leaves. *)
Lemma reducer_frame s a w :
  let r := reducer (Some s) a w in
  let h := handleAction s a w in
  r.1 = set_calculatedFullModuleData (calculatedFullModuleData r.1) h.1
  ∧ sets r.2 = sets h.2 ∧ arrays r.2 = arrays h.2 ∧ tables r.2 = tables h.2.
Proof.
  unfold reducer, mbind, M_bind. simpl.
  destruct (handleAction s a w) as [s1 w1]. apply calculate_frame.
Qed.

Lemma reducer_expandMode s a w :
  expandMode (reducer (Some s) a w).1 = expandMode (handleAction s a w).1.
Proof. destruct (reducer_frame s a w) as [-> _]. done. Qed.

Lemma reducer_expandedRecords s a w :
  expandedRecords (reducer (Some s) a w).1
  = expandedRecords (handleAction s a w).1.
Proof. destruct (reducer_frame s a w) as [-> _]. done. Qed.

Lemma reducer_dataPaths s a w :
  dataPaths (reducer (Some s) a w).1 = dataPaths (handleAction s a w).1.
Proof. destruct (reducer_frame s a w) as [-> _]. done. Qed.

Lemma reducer_sort s a w :
  sort (reducer (Some s) a w).1 = sort (handleAction s a w).1.
Proof. destruct (reducer_frame s a w) as [-> _]. done. Qed.

Lemma reducer_read_set s a w (r : loc) :
  read_set (reducer (Some s) a w).2 r = read_set (handleAction s a w).2 r.
Proof.
  destruct (reducer_frame s a w) as (_ & Hsets & _).
  unfold read_set. by rewrite Hsets.
Qed.

(** ** What [handleAction] leaves alone *)

(** [handleAction] never writes the derived data, never calls the
    derivation, and never changes an array or a table that exists: it only
    allocates new ones. *)
Lemma handleAction_frame s a w :
  let h := handleAction s a w in
  calculatedFullModuleData h.1 = calculatedFullModuleData s
  ∧ fmds h.2 = fmds w
  ∧ derivations h.2 = derivations w
  ∧ (∀ r : loc, r ∈ dom (arrays w) -> arrays h.2 !! r = arrays w !! r)
  ∧ (∀ r : loc, r ∈ dom (tables w) -> tables h.2 !! r = tables w !! r).
Proof.
  cbv zeta.
  destruct a; unfold handleAction; unfold_store; reduce_fields;
    repeat case_match; reduce_fields;
    repeat split; try done;
    intros r Hr; rewrite lookup_insert_ne; try done; by apply fresh_ne.
Qed.

(** A well-formed state stays well-formed. *)
Lemma handleAction_wf s a w :
  wf_state w s -> wf_state (handleAction s a w).2 (handleAction s a w).1.
Proof.
  unfold wf_state. intros (Hb & Hj & He & Hd).
  destruct a; unfold handleAction; unfold_store; reduce_fields;
    repeat case_match; reduce_fields;
    rewrite ?dom_insert_L; repeat split; try set_solver.
Qed.

(** ** Invariants of the reducer *)

Lemma reducer_eq s a w :
  reducer (Some s) a w
  = calculateFullModuleData s (handleAction s a w).1 (handleAction s a w).2.
Proof.
  unfold reducer, mbind, M_bind. simpl. by destruct (handleAction s a w).
Qed.

Lemma document_eq w1 w2 s1 s2 :
  read_table w1 (json s1) = read_table w2 (json s2) ->
  selectedFilename s1 = selectedFilename s2 ->
  document w1 s1 = document w2 s2.
Proof. unfold document. by intros -> ->. Qed.

(** The document seen by the result of the reducer is the one seen by
    the result of [handleAction]. *)
Lemma reducer_document s a w :
  document (reducer (Some s) a w).2 (reducer (Some s) a w).1
  = document (handleAction s a w).2 (handleAction s a w).1.
Proof.
  destruct (reducer_frame s a w) as (Hs & _ & _ & Htables).
  apply document_eq; [|by rewrite Hs].
  unfold read_table. rewrite Htables. by rewrite Hs.
Qed.

Lemma reducer_wf s a w :
  wf_state w s -> wf_state (reducer (Some s) a w).2 (reducer (Some s) a w).1.
Proof.
  intros Hwf. apply (handleAction_wf s a) in Hwf.
  rewrite reducer_eq.
  destruct (handleAction s a w) as [s1 w1]. reduce_fields.
  pose proof (calculate_frame s s1 w1) as (_ & Hsets & Harrays & Htables).
  pose proof (calculate_cases s s1 w1) as Hc. cbv zeta in Hc.
  destruct Hwf as (Hb & Hj & He & Hd).
  destruct (selected_document _ _) as [stats|]; [case_decide|].
  - rewrite Hc. by repeat split.
  - destruct Hc as (Hs & Hfmds & _).
    unfold wf_state. rewrite Hsets, Harrays, Htables, Hs, Hfmds.
    reduce_fields. repeat split; try done.
    intros r [= <-]. rewrite dom_insert_L. set_solver.
  - rewrite Hc. by repeat split.
Qed.

(** Once the derived data is in step with the document, the chunk and
    the blacklist, it stays so. *)
Lemma reducer_derived s a w :
  wf_state w s -> derived w s ->
  derived (reducer (Some s) a w).2 (reducer (Some s) a w).1.
Proof.
  intros (Hb & Hj & _ & _) Hder.
  pose proof (handleAction_frame s a w) as Hframe. cbv zeta in Hframe.
  pose proof (reducer_document s a w) as Hdoc. revert Hdoc.
  rewrite reducer_eq.
  destruct (handleAction s a w) as [s1 w1]. reduce_fields.
  destruct Hframe as (Hcfmd & Hfmds & _ & Harrays & Htables).
  pose proof (calculate_frame s s1 w1) as (_ & _ & Harr' & _).
  pose proof (calculate_cases s s1 w1) as Hc. cbv zeta in Hc.
  unfold derived. intros ->. unfold document at 1.
  destruct (selected_document _ _) as [stats|] eqn:Hsel; [case_decide as Hsame|].
  - rewrite Hc. reduce_fields. destruct Hsame as (Hjson & Hfile & Hchunk & Hbl).
    assert (document w s = Some stats) as Hdoc.
    { rewrite <- Hsel. apply document_eq; [|done].
      unfold read_table. by rewrite <- Hjson, Htables. }
    unfold derived in Hder. rewrite Hdoc in Hder.
    destruct Hder as (r & Hr & Hval).
    exists r. rewrite Hcfmd. split; [done|].
    unfold read_fmd, read_array in *.
    by rewrite Hfmds, <- Hchunk, <- Hbl, Harrays.
  - destruct Hc as (Hs & Hfmds' & _). rewrite Hs. reduce_fields.
    eexists. split; [done|].
    unfold read_fmd, read_array. rewrite Hfmds', Harr'.
    by rewrite lookup_insert_eq.
  - by rewrite Hc.
Qed.

(** Every state met from [INITIAL_STATE] is well-formed and has its
    derived data in step. *)
Lemma reachable_invariant w s : reachable w s -> wf_state w s ∧ derived w s.
Proof.
  induction 1 as [|w s a _ [Hwf Hder]].
  - split.
    + unfold wf_state, initial_world, INITIAL_STATE. reduce_fields.
      rewrite !dom_singleton_L. repeat split; set_solver.
    + done.
  - split; [by apply reducer_wf|by apply reducer_derived].
Qed.

(** Derived data that exists is never overwritten. *)
Lemma reducer_fmds_frame s a w (l : loc) :
  l ∈ dom (fmds w) -> fmds (reducer (Some s) a w).2 !! l = fmds w !! l.
Proof.
  intros Hl.
  pose proof (handleAction_frame s a w) as Hframe. cbv zeta in Hframe.
  rewrite reducer_eq.
  destruct (handleAction s a w) as [s1 w1]. reduce_fields.
  destruct Hframe as (_ & Hfmds & _).
  pose proof (calculate_cases s s1 w1) as Hc. cbv zeta in Hc.
  destruct (selected_document _ _) as [stats|]; [case_decide|].
  - by rewrite Hc, <- Hfmds.
  - destruct Hc as (_ & -> & _). rewrite Hfmds.
    rewrite lookup_insert_ne; [done|]. by apply fresh_ne.
  - by rewrite Hc, <- Hfmds.
Qed.

(** ** What a transition does to the state it is given *)

(** The set of expanded records of the state passed in, after
    [handleAction]: it has gained the record that the branch adds. *)
Lemma handleAction_input_set s a w :
  wf_state w s ->
  read_set (handleAction s a w).2 (expandedRecords s)
  = match added_record w s a with
    | Some m => {[m]} ∪ read_set w (expandedRecords s)
    | None => read_set w (expandedRecords s)
    end.
Proof.
  intros (_ & _ & He & _).
  pose proof (fresh_ne (sets w) _ He) as Hne.
  destruct a; unfold handleAction, added_record; unfold_store; reduce_fields;
    repeat case_match; simplify_eq/=; unfold read_set; reduce_fields;
    rewrite ?(lookup_insert_ne _ _ _ _ Hne), ?lookup_insert_eq; try done.
  all: rewrite lookup_insert_ne;
    [by rewrite lookup_insert_eq
    |apply fresh_ne; rewrite dom_insert_L; set_solver].
Qed.

(** The objects held by the state passed in, after the transition: the
    array, the table and the derived data are as before, and the set of
    expanded records has gained the record that the branch adds. *)
Lemma reducer_input_after s a w :
  wf_state w s ->
  let r := reducer (Some s) a w in
  read_array r.2 (blacklistedModuleIds s)
  = read_array w (blacklistedModuleIds s)
  ∧ read_table r.2 (json s) = read_table w (json s)
  ∧ derived_value r.2 s = derived_value w s
  ∧ read_set r.2 (expandedRecords s)
    = match added_record w s a with
      | Some m => {[m]} ∪ read_set w (expandedRecords s)
      | None => read_set w (expandedRecords s)
      end.
Proof.
  intros Hwf. cbv zeta.
  pose proof (handleAction_input_set s a w Hwf) as Hset.
  destruct Hwf as (Hb & Hj & _ & Hd).
  destruct (reducer_frame s a w) as (_ & _ & Harr & Htab).
  destruct (handleAction_frame s a w) as (_ & _ & _ & Harr' & Htab').
  rewrite reducer_read_set.
  unfold read_array, read_table, derived_value, read_fmd.
  rewrite Harr, Htab, Harr', Htab' by done.
  repeat split; try done.
  destruct (calculatedFullModuleData s) as [l|]; [simpl|done].
  apply reducer_fmds_frame. by apply Hd.
Qed.

(** Apart from the two branches that add to the set, the reducer leaves
    the state passed in as it was. *)
Lemma reducer_pure_unless_adding s a w :
  wf_state w s -> added_record w s a = None ->
  state_value (reducer (Some s) a w).2 s = state_value w s.
Proof.
  intros Hwf Hnone.
  destruct (reducer_input_after s a w Hwf) as (Harr & Htab & Hval & Hset).
  rewrite Hnone in Hset. unfold state_value.
  by rewrite Harr, Htab, Hval, Hset.
Qed.

(** ** The derived data *)

(** On any value of type [State], an action whose type is not in the
    catalogue leaves the store and every field but the derived data as
    they are.  The derived data is kept too when a document is read for
    the selected file; otherwise it is [null] afterwards. *)
Lemma unrecognized_action_cases s (type : string) w :
  let r := reducer (Some s) (otherAction type) w in
  r.2 = w
  ∧ set_calculatedFullModuleData (calculatedFullModuleData s) r.1 = s
  ∧ (is_Some (document w s) -> r.1 = s)
  ∧ (document w s = None -> calculatedFullModuleData r.1 = None)
  ∧ ((document w s = None -> calculatedFullModuleData s = None) -> r.1 = s).
Proof.
  cbv zeta. rewrite reducer_eq. unfold handleAction. unfold_store.
  reduce_fields.
  pose proof (calculate_cases s s w) as Hc. cbv zeta in Hc.
  unfold document.
  destruct (selected_document _ _) as [stats|].
  - rewrite decide_True in Hc by done. rewrite Hc. reduce_fields.
    repeat split; try done. by destruct s.
  - rewrite Hc. reduce_fields. repeat split; try done.
    + by destruct s.
    + intros Hnull. destruct s; reduce_fields.
      unfold set_calculatedFullModuleData. reduce_fields.
      by rewrite Hnull.
Qed.

(** On any value of type [State], when a transition leaves the [json]
    table, the selected file, the selected chunk and the blacklist
    identical, [fullModuleData] is not called and no derived data is
    created.  The derived data is then the same reference as before if a
    document is read for the selected file, and [null] otherwise. *)
Lemma no_change_no_derivation_cases s a w :
  let r := reducer (Some s) a w in
  json r.1 = json s ->
  selectedFilename r.1 = selectedFilename s ->
  selectedChunkId r.1 = selectedChunkId s ->
  blacklistedModuleIds r.1 = blacklistedModuleIds s ->
  derivations r.2 = derivations w
  ∧ fmds r.2 = fmds w
  ∧ (is_Some (document r.2 r.1) ->
     calculatedFullModuleData r.1 = calculatedFullModuleData s)
  ∧ (document r.2 r.1 = None -> calculatedFullModuleData r.1 = None)
  ∧ (json s ∈ dom (tables w) ->
     (document w s = None -> calculatedFullModuleData s = None) ->
     calculatedFullModuleData r.1 = calculatedFullModuleData s).
Proof.
  cbv zeta.
  pose proof (handleAction_frame s a w) as Hframe. cbv zeta in Hframe.
  pose proof (reducer_document s a w) as Hdoc. revert Hdoc.
  destruct (reducer_frame s a w) as (Hs & _). revert Hs.
  rewrite reducer_eq.
  destruct (handleAction s a w) as [s1 w1]. reduce_fields.
  destruct Hframe as (Hcfmd & Hfmds & Hlog & _ & Htables).
  pose proof (calculate_cases s s1 w1) as Hc. cbv zeta in Hc.
  intros Hs -> Hjson Hfile Hchunk Hbl.
  rewrite Hs in Hjson, Hfile, Hchunk, Hbl. reduce_fields.
  assert (json s ∈ dom (tables w) -> document w1 s1 = document w s) as Hsame.
  { intros Hdom. apply document_eq; [|done].
    unfold read_table. by rewrite Hjson, Htables. }
  unfold document at 1 in Hsame. unfold document at 1 2.
  destruct (selected_document _ _) as [stats|].
  - rewrite decide_True in Hc by done. rewrite Hc. reduce_fields.
    by repeat split.
  - rewrite Hc. reduce_fields. repeat split; try done.
    intros Hdom Hnull. symmetry. apply Hnull. by rewrite <- Hsame.
Qed.

(** On the states met from [INITIAL_STATE] the derived data is [null]
    exactly when no document is read. *)
Lemma reachable_null_iff w s :
  reachable w s -> calculatedFullModuleData s = None ↔ document w s = None.
Proof.
  intros [_ Hder]%reachable_invariant. unfold derived in Hder.
  destruct (document w s) as [stats|]; [|done].
  destruct Hder as (r & -> & _). done.
Qed.

(** C4: on every state met from [INITIAL_STATE], an action whose type is
    not in the catalogue returns the state unchanged, no field altered,
    and leaves the store as it is. *)
Theorem C4_unrecognized_action w s (type : string) :
  reachable w s -> reducer (Some s) (otherAction type) w = (s, w).
Proof.
  intros Hnull%reachable_null_iff.
  rewrite reducer_eq. unfold handleAction. unfold_store. reduce_fields.
  pose proof (calculate_cases s s w) as Hc. cbv zeta in Hc.
  unfold document in Hnull.
  destruct (selected_document _ _) as [stats|].
  - by rewrite decide_True in Hc.
  - rewrite Hc. f_equal. destruct s; reduce_fields.
    unfold set_calculatedFullModuleData. reduce_fields.
    f_equal. symmetry. by apply Hnull.
Qed.

(** The read of a property, case by case. *)
Lemma property_Some_own {A B} (own : A -> Value B) (obj : gmap string A)
    (key : string) (a : A) :
  obj !! key = Some a -> property own obj key = Some (own a).
Proof. unfold property. by intros ->. Qed.



(** A status is read as ['ready'] exactly when it is stored as such. *)
Lemma property_ready (obj : gmap string (Value DataPathState))
    (key : string) (status : DataPathState) :
  property id obj key = Some (value status) ↔ obj !! key = Some (value status).
Proof.
  unfold property. destruct (obj !! key); [done|].
  destruct (inherited key); naive_solver.
Qed.




(** The value of the derived data after a transition: [null] without a
    document, the value carried over when the four inputs are identical,
    and the result of a new derivation otherwise. *)
Lemma reducer_derived_data s a w :
  let h := handleAction s a w in
  let r := reducer (Some s) a w in
  match document r.2 r.1 with
  | None => calculatedFullModuleData r.1 = None ∧ derivations r.2 = derivations w
  | Some stats =>
      if decide (json s = json h.1
                 ∧ selectedFilename s = selectedFilename h.1
                 ∧ selectedChunkId s = selectedChunkId h.1
                 ∧ blacklistedModuleIds s = blacklistedModuleIds h.1)
      then calculatedFullModuleData r.1 = calculatedFullModuleData s
           ∧ r.2 = h.2 ∧ derivations r.2 = derivations w
      else ∃ l : loc,
             calculatedFullModuleData r.1 = Some l
             ∧ read_fmd r.2 l
               = Some (fullModuleData stats (selectedChunkId r.1)
                         (read_array r.2 (blacklistedModuleIds r.1)))
             ∧ derivations r.2
               = (derivations w
                  ++ [(stats, selectedChunkId r.1,
                       read_array r.2 (blacklistedModuleIds r.1))])%list
  end.
Proof.
  cbv zeta.
  pose proof (handleAction_frame s a w) as Hframe. cbv zeta in Hframe.
  rewrite reducer_document. rewrite reducer_eq.
  destruct (handleAction s a w) as [s1 w1]. reduce_fields.
  destruct Hframe as (Hcfmd & _ & Hlog & _).
  pose proof (calculate_frame s s1 w1) as (_ & _ & Harr & _).
  pose proof (calculate_cases s s1 w1) as Hc. cbv zeta in Hc.
  unfold document.
  destruct (selected_document _ _) as [stats|]; [case_decide|].
  - by rewrite Hc.
  - destruct Hc as (Hs & Hfmds & Hlog'). eexists.
    unfold read_fmd, read_array. rewrite Hs, Hfmds, Harr, Hlog', Hlog.
    reduce_fields. by rewrite lookup_insert_eq.
  - by rewrite Hc.
Qed.

(** C2: on every state met from [INITIAL_STATE] and for every action, if
    the transition leaves the [json] table, the selected file, the
    selected chunk and the blacklist identical to what they were, the
    derived data of the result is the same reference as before, and
    [fullModuleData] is not called. *)
Theorem C2_no_change_no_derivation w s a :
  reachable w s ->
  let r := reducer (Some s) a w in
  json r.1 = json s ->
  selectedFilename r.1 = selectedFilename s ->
  selectedChunkId r.1 = selectedChunkId s ->
  blacklistedModuleIds r.1 = blacklistedModuleIds s ->
  calculatedFullModuleData r.1 = calculatedFullModuleData s
  ∧ derivations r.2 = derivations w.
Proof.
  intros Hreach r Hjson Hfile Hchunk Hbl.
  pose proof (reachable_null_iff w s Hreach) as Hnull.
  apply reachable_invariant in Hreach as [(_ & Hj & _) _].
  pose proof (reducer_derived_data s a w) as Hd. cbv zeta in Hd.
  fold r in Hd.
  destruct (reducer_frame s a w) as (Hs & _ & _ & Htab). fold r in Hs, Htab.
  destruct (handleAction_frame s a w) as (_ & _ & _ & _ & Htab').
  assert (document r.2 r.1 = document w s) as Hdoc.
  { apply document_eq; [|done].
    unfold read_table. by rewrite Hjson, Htab, Htab'. }
  rewrite Hdoc in Hd.
  rewrite Hs in Hjson, Hfile, Hchunk, Hbl. reduce_fields.
  destruct (document w s) as [stats|].
  - rewrite decide_True in Hd by done. naive_solver.
  - destruct Hd as [-> ->]. split; [|done]. symmetry. by apply Hnull.
Qed.


(** The derived data of a state that is in step, by value. *)
Lemma derived_value_in_step w s :
  derived w s ->
  derived_value w s
  = (fun stats => fullModuleData stats (selectedChunkId s)
                    (read_array w (blacklistedModuleIds s)))
    <$> document w s.
Proof.
  unfold derived, derived_value.
  destruct (document w s) as [stats|].
  - intros (r & Hr & Hval). rewrite Hr. simpl. by rewrite Hval.
  - by intros ->.
Qed.

(** ** The blacklist *)

(** Removing a module and including it again gives back the elements of
    the blacklist, when none of them is the module. *)
Lemma filter_after_append (m : ModuleID) (l : list ModuleID) :
  Forall (fun id => js_String id ≠ js_String m) l ->
  filter (fun id => js_String id ≠ js_String m) (l ++ [m]) = l.
Proof.
  intros Hall. rewrite filter_app.
  rewrite filter_cons_False by naive_solver.
  rewrite filter_nil, app_nil_r.
  induction Hall as [|x l Hx _ IH]; [done|].
  by rewrite filter_cons_True, IH.
Qed.

(** The two actions on the blacklist make a new array and leave the
    selection alone. *)
Lemma blacklist_step s a w (elems : list ModuleID) :
  handleAction s a w
  = (set_blacklistedModuleIds (fresh (dom (arrays w))) s,
     with_arrays (<[fresh (dom (arrays w)) := elems]> (arrays w)) w) ->
  let r := reducer (Some s) a w in
  blacklistedModuleIds r.1 = fresh (dom (arrays w))
  ∧ read_array r.2 (blacklistedModuleIds r.1) = elems
  ∧ document r.2 r.1 = document w s
  ∧ selectedChunkId r.1 = selectedChunkId s.
Proof.
  intros Hh. cbv zeta. rewrite reducer_document.
  destruct (reducer_frame s a w) as (Hs & _ & Harr & _).
  unfold read_array. rewrite Hs, Harr, Hh. reduce_fields.
  by rewrite lookup_insert_eq.
Qed.

(** [onRemoveModule] followed by [onIncludeModule] of the same module, on
    any state: the blacklist is a new array with the old elements that
    [String] does not make equal to the module, and the derived data is
    the derivation of the same document and chunk from that blacklist. *)
Lemma include_after_remove s (m : ModuleID) w :
  let r1 := reducer (Some s) (onRemoveModule m) w in
  let r2 := reducer (Some r1.1) (onIncludeModule m) r1.2 in
  let blacklist :=
    filter (fun id => js_String id ≠ js_String m)
           (read_array w (blacklistedModuleIds s) ++ [m]) in
  read_array r2.2 (blacklistedModuleIds r2.1) = blacklist
  ∧ derived_value r2.2 r2.1
    = (fun stats => fullModuleData stats (selectedChunkId s) blacklist)
      <$> document w s.
Proof.
  intros r1 r2 blacklist.
  destruct (blacklist_step s (onRemoveModule m) w _ eq_refl)
    as (Hbl1 & Harr1 & Hdoc1 & Hchunk1).
  fold r1 in Hbl1, Harr1, Hdoc1, Hchunk1.
  destruct (blacklist_step r1.1 (onIncludeModule m) r1.2 _ eq_refl)
    as (Hbl2 & Harr2 & Hdoc2 & Hchunk2).
  fold r2 in Hbl2, Harr2, Hdoc2, Hchunk2.
  rewrite Harr1 in Harr2. fold blacklist in Harr2.
  split; [done|].
  pose proof (reducer_derived_data r1.1 (onIncludeModule m) r1.2) as Hd.
  cbv zeta in Hd. fold r2 in Hd.
  rewrite Hdoc2, Hdoc1 in Hd. unfold derived_value.
  destruct (document w s) as [stats|]; [|by destruct Hd as [-> _]].
  rewrite decide_False in Hd.
  - destruct Hd as (l & -> & Hl & _). simpl.
    by rewrite Hl, Harr2, Hchunk2, Hchunk1.
  - intros (_ & _ & _ & Hsame). revert Hsame.
    unfold handleAction. unfold_store. reduce_fields. rewrite Hbl1.
    intros Hsame.
    assert (fresh (dom (arrays w)) ∈ dom (arrays r1.2)) as Hin.
    { rewrite <- Hbl1. apply elem_of_dom.
      unfold read_array in Harr1.
      destruct (arrays r1.2 !! blacklistedModuleIds r1.1); [done|].
      simpl in Harr1. symmetry in Harr1. by apply app_nil in Harr1 as [_ ?]. }
    rewrite Hsame in Hin. by apply is_fresh in Hin.
Qed.

(** C6: in a state whose derived data is the derivation of its document,
    chunk and blacklist, and for a module that is not excluded (the
    blacklist has no entry that [String] makes equal to it),
    [onRemoveModule] followed by [onIncludeModule] of the module yields
    derived data equal in value to the data before the removal. *)
Theorem C6_remove_then_include s (m : ModuleID) w :
  derived w s ->
  Forall (fun id => js_String id ≠ js_String m)
         (read_array w (blacklistedModuleIds s)) ->
  let r1 := reducer (Some s) (onRemoveModule m) w in
  let r2 := reducer (Some r1.1) (onIncludeModule m) r1.2 in
  derived_value r2.2 r2.1 = derived_value w s.
Proof.
  intros Hder Hall r1 r2.
  destruct (include_after_remove s m w) as [_ Hvalue].
  cbv zeta in Hvalue. fold r1 r2 in Hvalue.
  rewrite Hvalue, (derived_value_in_step w s Hder).
  by rewrite filter_after_append.
Qed.

(** The same for a module that has a record in the derived data, when
    the derivation keeps no record of an excluded module. *)
Lemma remove_then_include_in_tree s (m : ModuleID) w
    (data : FullModuleDataType) :
  (∀ stats chunkId blacklist id,
     in_tree (fullModuleData stats chunkId blacklist) id ->
     Forall (fun excluded => js_String excluded ≠ js_String id) blacklist) ->
  derived w s ->
  derived_value w s = Some data ->
  in_tree data m ->
  let r1 := reducer (Some s) (onRemoveModule m) w in
  let r2 := reducer (Some r1.1) (onIncludeModule m) r1.2 in
  derived_value r2.2 r2.1 = Some data.
Proof.
  intros Hdrop Hder Hdata Htree r1 r2.
  destruct (include_after_remove s m w) as [_ Hvalue].
  cbv zeta in Hvalue. fold r1 r2 in Hvalue.
  rewrite (derived_value_in_step w s Hder) in Hdata.
  rewrite Hvalue.
  destruct (document w s) as [stats|]; [|done].
  injection Hdata as <-. apply Hdrop in Htree.
  simpl. by rewrite filter_after_append.
Qed.

(** ** Expanding and collapsing records *)

(** What [onCollapseRecords] does: the new set is a copy without the
    module, and the mode is chosen by the size of the set before the
    removal. *)
Lemma collapse_records s (m : ModuleID) w :
  let r := reducer (Some s) (onCollapseRecords m) w in
  read_set r.2 (expandedRecords r.1) = read_set w (expandedRecords s) ∖ {[m]}
  ∧ expandMode r.1
    = if decide (size (read_set w (expandedRecords s)) = 0)
      then collapse_all else manual.
Proof.
  cbv zeta.
  rewrite reducer_expandMode, reducer_expandedRecords, reducer_read_set.
  unfold handleAction. unfold_store. reduce_fields.
  unfold read_set. reduce_fields.
  pose proof (fresh_lookup (sets w)) as Hf.
  rewrite !lookup_insert_eq. reduce_fields. split; [done|].
  destruct (decide (fresh (dom (sets w)) = expandedRecords s)) as [<-|Hne].
  - rewrite lookup_insert_eq, Hf. reduce_fields.
    by rewrite empty_difference_L.
  - by rewrite !lookup_insert_ne.
Qed.

(** A collapse that leaves records expanded gives the mode ['manual']. *)
Lemma collapse_nonempty_result_manual s (m : ModuleID) w :
  let r := reducer (Some s) (onCollapseRecords m) w in
  read_set r.2 (expandedRecords r.1) ≠ ∅ -> expandMode r.1 = manual.
Proof.
  cbv zeta. destruct (collapse_records s m w) as [-> ->].
  intros Hne. case_decide as Hsize; [|done].
  apply size_empty_inv, leibniz_equiv in Hsize. rewrite Hsize in Hne.
  by rewrite empty_difference_L in Hne.
Qed.

(** A collapse of the only expanded record empties the set and gives the
    mode ['manual'] all the same. *)
Lemma collapse_only_record s (m : ModuleID) w :
  read_set w (expandedRecords s) = {[m]} ->
  let r := reducer (Some s) (onCollapseRecords m) w in
  read_set r.2 (expandedRecords r.1) = ∅ ∧ expandMode r.1 = manual.
Proof.
  intros Hone. cbv zeta. destruct (collapse_records s m w) as [-> ->].
  rewrite Hone. split; [set_solver|].
  by rewrite size_singleton.
Qed.

(** C9: when the set of expanded records is not empty, [onCollapseRecords]
    leaves the mode at ['manual'], whatever the mode was and whether or
    not the module was in the set. *)
Theorem C9_collapse_nonempty_sets_manual s (m : ModuleID) w :
  read_set w (expandedRecords s) ≠ ∅ ->
  expandMode (reducer (Some s) (onCollapseRecords m) w).1 = manual.
Proof.
  intros Hne. destruct (collapse_records s m w) as [_ ->].
  case_decide as Hsize; [|done].
  by apply size_empty_inv, leibniz_equiv in Hsize.
Qed.

(** ** Sorting *)

(** C7: [onSorted(F)] on the current sort field inverts the direction;
    [onSorted(G)] on another field selects [G] with direction ['DESC']. *)
Theorem C7_onSorted_toggles s (f : string) w :
  let s' := (reducer (Some s) (onSorted f) w).1 in
  field (sort s') = f
  ∧ (f = field (sort s) ->
       (direction (sort s) = ASC -> direction (sort s') = DESC)
       ∧ (direction (sort s) = DESC -> direction (sort s') = ASC))
  ∧ (f ≠ field (sort s) -> direction (sort s') = DESC).
Proof.
  cbv zeta. rewrite reducer_sort.
  unfold handleAction. unfold_store. reduce_fields.
  split; [done|]. split.
  - intros ->. rewrite bool_decide_eq_true_2 by done.
    split; intros ->; done.
  - intros Hne. by rewrite bool_decide_eq_false_2.
Qed.

(** ** Load status of a path *)

(** C5: a path that is ['ready'] stays ['ready'] under
    [requestedDataAtPath]; in particular after [loadedStatsAtPath]. *)
Theorem C5_ready_not_regressed s (p : string) w :
  (dataPaths s !! p = Some (value ready) ->
   dataPaths (reducer (Some s) (requestedDataAtPath p) w).1 !! p
   = Some (value ready))
  ∧ ∀ stats : RawStats,
      let r := reducer (Some s) (loadedStatsAtPath p stats) w in
      dataPaths r.1 !! p = Some (value ready)
      ∧ dataPaths (reducer (Some r.1) (requestedDataAtPath p) r.2).1 !! p
        = Some (value ready).
Proof.
  assert (Hreq : ∀ s0 w0, dataPaths s0 !! p = Some (value ready) ->
    dataPaths (reducer (Some s0) (requestedDataAtPath p) w0).1 !! p
    = Some (value ready)).
  { intros s0 w0 Hready. rewrite reducer_dataPaths.
    unfold handleAction. unfold_store. reduce_fields.
    rewrite lookup_insert_eq.
    by rewrite decide_True by (by apply property_ready). }
  split; [apply Hreq|].
  intros stats r.
  assert (Hloaded : dataPaths r.1 !! p = Some (value ready)).
  { subst r. rewrite reducer_dataPaths.
    unfold handleAction. unfold_store. reduce_fields.
    apply lookup_insert_eq. }
  split; [done|]. by apply Hreq.
Qed.

(** C10: in [handleAction], [erroredAtPath(p, error)] sets the status of
    [p] to ['error'], whatever it was, and changes nothing else: the
    store, the [json] table and the documents in it, the status of every
    other path and every other field are as before.  Through [reducer]
    the store is untouched as well and the same holds for every field but
    the derived data, which is kept too unless it was set although no
    document is selected. *)
Theorem C10_erroredAtPath_frame s (p err : string) w :
  let h := handleAction s (erroredAtPath p err) w in
  let r := reducer (Some s) (erroredAtPath p err) w in
  (h.2 = w
   ∧ dataPaths h.1 !! p = Some (value error)
   ∧ (∀ q : string, q ≠ p -> dataPaths h.1 !! q = dataPaths s !! q)
   ∧ read_table h.2 (json h.1) = read_table w (json s)
   ∧ set_dataPaths (dataPaths s) h.1 = s)
  ∧ (r.2 = w
     ∧ dataPaths r.1 = dataPaths h.1
     ∧ set_calculatedFullModuleData (calculatedFullModuleData s)
         (set_dataPaths (dataPaths s) r.1) = s
     ∧ (is_Some (document w s) ∨ calculatedFullModuleData s = None ->
        set_dataPaths (dataPaths s) r.1 = s)).
Proof.
  cbv zeta. rewrite reducer_eq.
  unfold handleAction. unfold_store. reduce_fields. split.
  - rewrite lookup_insert_eq. repeat split; try done.
    + intros q Hq. by rewrite lookup_insert_ne.
    + by destruct s.
  - match goal with |- context [calculateFullModuleData s ?n w] =>
      pose proof (calculate_cases s n w) as Hc end.
    cbv zeta in Hc. reduce_fields. unfold document.
    destruct (selected_document _ _) as [stats|].
    + rewrite decide_True in Hc by done. rewrite Hc. reduce_fields.
      repeat split; try done; by destruct s.
    + rewrite Hc. reduce_fields. repeat split; try done.
      * by destruct s.
      * intros [[? [=]]|Hnull]. destruct s; reduce_fields.
        unfold set_dataPaths, set_calculatedFullModuleData. reduce_fields.
        by rewrite Hnull.
Qed.

(** * Further properties of the reducer *)

(** ** The status table *)

(** One step of the [reduce] callback. *)
Lemma discover_lookup (map : gmap string (Value DataPathState))
    (path q : string) :
  discover map path !! q
  = if decide (q = path)
    then match map !! q with
         | Some status => Some status
         | None => discovered_status q
         end
    else map !! q.
Proof.
  unfold discover, discovered_status, property.
  destruct (decide (q = path)) as [->|Hne].
  - case_decide as Hproto.
    + destruct Hproto as [-> ->]. by rewrite decide_True.
    + rewrite lookup_insert_eq.
      destruct (map !! path) as [status|] eqn:Hpath; [done|].
      rewrite decide_False by naive_solver.
      by destruct (inherited path).
  - case_decide; [done|]. by rewrite lookup_insert_ne.
Qed.

(** The statuses collected by the [reduce] callback. *)
Lemma discovered_lookup (paths : list string) (q : string) :
  discovered paths !! q
  = if decide (q ∈ paths) then discovered_status q else None.
Proof.
  unfold discovered.
  assert (Hgen : ∀ acc : gmap string (Value DataPathState),
    foldl discover acc paths !! q
    = if decide (q ∈ paths)
      then match acc !! q with
           | Some status => Some status
           | None => discovered_status q
           end
      else acc !! q).
  { induction paths as [|p paths IH]; intros acc; cbn [foldl].
    - rewrite decide_False; [done|]. apply not_elem_of_nil.
    - rewrite IH, !discover_lookup. destruct (decide (q = p)) as [->|Hne].
      + rewrite (decide_True (P := p ∈ p :: paths)) by apply list_elem_of_here.
        destruct (acc !! p); [by case_decide|].
        destruct (discovered_status p); by case_decide.
      + destruct (decide (q ∈ paths)) as [Hin|Hnin].
        * rewrite decide_True; [done|]. by apply list_elem_of_further.
        * rewrite decide_False; [done|].
          intros [?|?]%elem_of_cons; done. }
  rewrite Hgen. by rewrite lookup_empty.
Qed.

(** The status table after [discoveredDataPaths]. *)
Lemma discoveredDataPaths_lookup s (paths : list string) w (q : string) :
  dataPaths (reducer (Some s) (discoveredDataPaths paths) w).1 !! q
  = match dataPaths s !! q with
    | Some status => Some status
    | None => if decide (q ∈ paths) then discovered_status q else None
    end.
Proof.
  rewrite reducer_dataPaths. unfold handleAction. unfold_store.
  reduce_fields. rewrite lookup_union, discovered_lookup.
  destruct (dataPaths s !! q); [|by rewrite (left_id_L None _)].
  by rewrite union_Some_l.
Qed.

(** X1: [discoveredDataPaths(paths)] keeps the status of every path that
    has one and adds no path that is not in the list.  A path of the list
    that has no status gets ['unknown'], unless it is the name of a
    property of [Object.prototype]: such a name gets the inherited value
    as its status, and ['__proto__'] gets none. *)
Theorem X1_discoveredDataPaths_merges s (paths : list string) w :
  let r := reducer (Some s) (discoveredDataPaths paths) w in
  (∀ (q : string) (status : Value DataPathState),
     dataPaths s !! q = Some status -> dataPaths r.1 !! q = Some status)
  ∧ (∀ q : string,
       q ∈ paths -> dataPaths s !! q = None ->
       dataPaths r.1 !! q
       = if inherited q
         then (if decide (q = "__proto__") then None
               else Some (prototype_value q))
         else Some (value unknown))
  ∧ (∀ q : string,
       q ∉ paths -> dataPaths r.1 !! q = dataPaths s !! q).
Proof.
  cbv zeta. repeat split.
  - intros q status Hq. by rewrite discoveredDataPaths_lookup, Hq.
  - intros q Hin Hq. rewrite discoveredDataPaths_lookup, Hq.
    rewrite decide_True by done. unfold discovered_status.
    case_decide as Hproto; [by subst|]. by destruct (inherited q).
  - intros q Hnin. rewrite discoveredDataPaths_lookup.
    destruct (dataPaths s !! q); [done|]. by rewrite decide_False.
Qed.

(** X2: discovering two lists of paths one after the other gives the
    status table of discovering their concatenation at once; in
    particular discovering the same list twice changes nothing more. *)
Theorem X2_discoveredDataPaths_composes s (paths1 paths2 : list string) w :
  let r1 := reducer (Some s) (discoveredDataPaths paths1) w in
  let r2 := reducer (Some r1.1) (discoveredDataPaths paths2) r1.2 in
  dataPaths r2.1
  = dataPaths (reducer (Some s) (discoveredDataPaths (paths1 ++ paths2)) w).1
  ∧ (paths2 = paths1 -> dataPaths r2.1 = dataPaths r1.1).
Proof.
  cbv zeta. split.
  - apply map_eq. intros q. rewrite !discoveredDataPaths_lookup.
    destruct (dataPaths s !! q); [done|].
    destruct (decide (q ∈ paths1)) as [H1|H1].
    + rewrite (decide_True (P := q ∈ paths1 ++ paths2))
        by (apply elem_of_app; by left).
      destruct (discovered_status q); [done|]. by case_decide.
    + destruct (decide (q ∈ paths2)) as [H2|H2].
      * rewrite decide_True; [done|]. apply elem_of_app. by right.
      * rewrite decide_False; [done|]. by intros [?|?]%elem_of_app.
  - intros ->. apply map_eq. intros q. rewrite !discoveredDataPaths_lookup.
    destruct (dataPaths s !! q); [done|].
    case_decide; [|done]. by destruct (discovered_status q).
Qed.

(** ** Sorting and filtering *)

(** X3: [onSorted] of the current sort field, twice, gives back the sort
    the state had; [onSorted] of another field, twice, sorts that field
    ascending. *)
Theorem X3_onSorted_twice s (f : string) w :
  let r1 := reducer (Some s) (onSorted f) w in
  let r2 := reducer (Some r1.1) (onSorted f) r1.2 in
  (f = field (sort s) -> sort r2.1 = sort s)
  ∧ (f ≠ field (sort s) -> sort r2.1 = mkSort f ASC).
Proof.
  cbv zeta. rewrite !reducer_sort.
  unfold handleAction. unfold_store. reduce_fields.
  rewrite reducer_sort. unfold handleAction. unfold_store. reduce_fields.
  rewrite (bool_decide_eq_true_2 (f = f)) by done. split.
  - intros ->. rewrite bool_decide_eq_true_2 by done.
    destruct (sort s) as [fld []]; by reduce_fields.
  - intros Hne. by rewrite bool_decide_eq_false_2.
Qed.

(** X4: [onFiltered(changes)] is a shallow merge: a filter named in
    [changes] takes the text given there, every other filter keeps its
    text; merging the same changes a second time changes nothing. *)
Theorem X4_onFiltered_merges s (changes : gmap string string) w :
  let r1 := reducer (Some s) (onFiltered changes) w in
  let r2 := reducer (Some r1.1) (onFiltered changes) r1.2 in
  (∀ (k text : string),
     changes !! k = Some text -> filters r1.1 !! k = Some text)
  ∧ (∀ k : string,
       changes !! k = None -> filters r1.1 !! k = filters s !! k)
  ∧ filters r2.1 = filters r1.1.
Proof.
  cbv zeta.
  assert (Hf : ∀ s0 w0,
    filters (reducer (Some s0) (onFiltered changes) w0).1
    = changes ∪ filters s0).
  { intros s0 w0. destruct (reducer_frame s0 (onFiltered changes) w0) as [-> _].
    done. }
  rewrite !Hf. repeat split.
  - intros k text Hk. by rewrite lookup_union, Hk, union_Some_l.
  - intros k Hk. by rewrite lookup_union, Hk, (left_id_L None _).
  - by rewrite (assoc_L _), (idemp_L _).
Qed.

(** ** When the derived data is computed again *)

(** What is read from the result of the reducer, other than the derived
    data, is what is read from the result of [handleAction]. *)
Lemma reducer_reads s a w :
  let r := reducer (Some s) a w in
  let h := handleAction s a w in
  set_calculatedFullModuleData (calculatedFullModuleData h.1) r.1 = h.1
  ∧ read_array r.2 (blacklistedModuleIds r.1)
    = read_array h.2 (blacklistedModuleIds h.1)
  ∧ read_table r.2 (json r.1) = read_table h.2 (json h.1)
  ∧ read_set r.2 (expandedRecords r.1) = read_set h.2 (expandedRecords h.1).
Proof.
  cbv zeta.
  destruct (reducer_frame s a w) as (Hs & Hsets & Harr & Htab).
  unfold read_array, read_table, read_set.
  rewrite Hsets, Harr, Htab, Hs. reduce_fields.
  by destruct (handleAction s a w).1.
Qed.

(** When one of the four inputs is not the one of the state before, the
    derived data after the transition is in step with the inputs, and
    [fullModuleData] has been called once if a document is read. *)
Lemma reducer_rederives s a w :
  let h := handleAction s a w in
  let r := reducer (Some s) a w in
  ¬ (json s = json h.1
     ∧ selectedFilename s = selectedFilename h.1
     ∧ selectedChunkId s = selectedChunkId h.1
     ∧ blacklistedModuleIds s = blacklistedModuleIds h.1) ->
  derived r.2 r.1
  ∧ derivations r.2
    = derivations w
      ++ match document r.2 r.1 with
         | Some stats =>
             [(stats, selectedChunkId r.1,
               read_array r.2 (blacklistedModuleIds r.1))]
         | None => []
         end.
Proof.
  cbv zeta. intros Hdiff.
  pose proof (reducer_derived_data s a w) as Hd. cbv zeta in Hd.
  unfold derived.
  destruct (document _ _) as [stats|].
  - rewrite decide_False in Hd by done.
    destruct Hd as (l & Hl & Hval & Hlog). split; [eauto|done].
  - destruct Hd as [Hnull Hlog]. by rewrite app_nil_r.
Qed.

(** The five actions that build a new array or table give the state a
    reference it did not have. *)
Lemma replaces_input_differs s a w :
  wf_state w s -> replaces_input a = true ->
  let h := handleAction s a w in
  ¬ (json s = json h.1
     ∧ selectedFilename s = selectedFilename h.1
     ∧ selectedChunkId s = selectedChunkId h.1
     ∧ blacklistedModuleIds s = blacklistedModuleIds h.1).
Proof.
  intros (Hb & Hj & _ & _) Ha. cbv zeta.
  pose proof (fresh_ne _ _ Hb) as Hb'. pose proof (fresh_ne _ _ Hj) as Hj'.
  destruct a; try discriminate Ha;
    unfold handleAction; unfold_store; reduce_fields;
    intros (Hjson & _ & _ & Hbl); congruence.
Qed.

(** X5: [pickDataPath], [loadedStatsAtPath], [onPickedChunk],
    [onRemoveModule] and [onIncludeModule] are never served from the
    previous derivation.  From any well-formed state, whatever its derived
    data was, the derived data afterwards is [null] when the read
    [json[selectedFilename]] finds nothing or no file is selected, and
    otherwise a new object holding the derivation of what the read finds
    (the stored document or, for a name of [Object.prototype] without
    one, the inherited value) with the chunk and blacklist of the new
    state, computed by one call of [fullModuleData]. *)
Theorem X5_replacing_actions_rederive s a w :
  wf_state w s -> replaces_input a = true ->
  let r := reducer (Some s) a w in
  derived r.2 r.1
  ∧ (document r.2 r.1 = None -> derivations r.2 = derivations w)
  ∧ (∀ stats : Value RawStats,
       document r.2 r.1 = Some stats ->
       derivations r.2
       = derivations w
         ++ [(stats, selectedChunkId r.1,
              read_array r.2 (blacklistedModuleIds r.1))]
       ∧ ∃ l : loc, calculatedFullModuleData r.1 = Some l
                    ∧ l ∉ dom (fmds w)).
Proof.
  intros Hwf Ha r.
  pose proof (replaces_input_differs s a w Hwf Ha) as Hdiff.
  destruct (reducer_rederives s a w Hdiff) as [Hder Hlog]. fold r in Hder, Hlog.
  split; [done|]. split.
  - intros Hnone. rewrite Hnone in Hlog. by rewrite app_nil_r in Hlog.
  - intros stats Hdoc. rewrite Hdoc in Hlog. split; [done|].
    subst r. revert Hdoc. rewrite reducer_document, reducer_eq.
    pose proof (handleAction_frame s a w) as (_ & Hfmds & _).
    destruct (handleAction s a w) as [s1 w1]. reduce_fields.
    pose proof (calculate_cases s s1 w1) as Hc. cbv zeta in Hc.
    unfold document. intros Hdoc. rewrite Hdoc, decide_False in Hc by done.
    destruct Hc as (-> & _). reduce_fields. eexists. split; [done|].
    rewrite Hfmds. apply is_fresh.
Qed.

(** X6: every other action leaves the [json] table, the selected file,
    the selected chunk and the blacklist identical, and never calls
    [fullModuleData]; the derived data is then the reference it was or
    [null]. *)
Theorem X6_other_actions_never_derive s a w :
  replaces_input a = false ->
  let r := reducer (Some s) a w in
  json r.1 = json s
  ∧ selectedFilename r.1 = selectedFilename s
  ∧ selectedChunkId r.1 = selectedChunkId s
  ∧ blacklistedModuleIds r.1 = blacklistedModuleIds s
  ∧ derivations r.2 = derivations w
  ∧ fmds r.2 = fmds w
  ∧ (calculatedFullModuleData r.1 = calculatedFullModuleData s
     ∨ calculatedFullModuleData r.1 = None).
Proof.
  intros Ha r.
  assert (Hsame :
    let h := handleAction s a w in
    json s = json h.1
    ∧ selectedFilename s = selectedFilename h.1
    ∧ selectedChunkId s = selectedChunkId h.1
    ∧ blacklistedModuleIds s = blacklistedModuleIds h.1).
  { cbv zeta. destruct a; try discriminate Ha;
      unfold handleAction; unfold_store; reduce_fields;
      repeat case_match; by reduce_fields. }
  cbv zeta in Hsame.
  destruct (reducer_frame s a w) as (Hs & _). fold r in Hs.
  pose proof (handleAction_frame s a w) as (Hcfmd & Hfmds & Hlog & _).
  subst r. revert Hs. rewrite reducer_eq.
  destruct (handleAction s a w) as [s1 w1]. reduce_fields.
  pose proof (calculate_cases s s1 w1) as Hc. cbv zeta in Hc.
  destruct Hsame as (Hjson & Hfile & Hchunk & Hbl).
  destruct (selected_document _ _) as [stats|].
  - rewrite decide_True in Hc by done. rewrite Hc. reduce_fields.
    intros _. repeat split; try done. by left.
  - rewrite Hc. reduce_fields. intros _. repeat split; try done. by right.
Qed.

(** The fields and objects of the result of the reducer, other than the
    derived data, are those of the result of [handleAction]. *)
Lemma reducer_selectedFilename s a w :
  selectedFilename (reducer (Some s) a w).1
  = selectedFilename (handleAction s a w).1.
Proof. destruct (reducer_frame s a w) as [-> _]. done. Qed.

Lemma reducer_selectedChunkId s a w :
  selectedChunkId (reducer (Some s) a w).1
  = selectedChunkId (handleAction s a w).1.
Proof. destruct (reducer_frame s a w) as [-> _]. done. Qed.

Lemma reducer_blacklistedModuleIds s a w :
  blacklistedModuleIds (reducer (Some s) a w).1
  = blacklistedModuleIds (handleAction s a w).1.
Proof. destruct (reducer_frame s a w) as [-> _]. done. Qed.

Lemma reducer_json s a w :
  json (reducer (Some s) a w).1 = json (handleAction s a w).1.
Proof. destruct (reducer_frame s a w) as [-> _]. done. Qed.

Lemma reducer_filters s a w :
  filters (reducer (Some s) a w).1 = filters (handleAction s a w).1.
Proof. destruct (reducer_frame s a w) as [-> _]. done. Qed.

Lemma reducer_focus s a w :
  currentlyFocusedElementID (reducer (Some s) a w).1
  = currentlyFocusedElementID (handleAction s a w).1.
Proof. destruct (reducer_frame s a w) as [-> _]. done. Qed.

Lemma reducer_read_array s a w (r : loc) :
  read_array (reducer (Some s) a w).2 r = read_array (handleAction s a w).2 r.
Proof.
  destruct (reducer_frame s a w) as (_ & _ & Harr & _).
  unfold read_array. by rewrite Harr.
Qed.

Lemma reducer_read_table s a w (r : loc) :
  read_table (reducer (Some s) a w).2 r = read_table (handleAction s a w).2 r.
Proof.
  destruct (reducer_frame s a w) as (_ & _ & _ & Htab).
  unfold read_table. by rewrite Htab.
Qed.

(** Rewriting everything read from the result of the reducer, except the
    derived data, to the result of [handleAction], and running the branch
    of the action. *)
Ltac to_handleAction :=
  rewrite ?reducer_selectedFilename, ?reducer_selectedChunkId,
    ?reducer_blacklistedModuleIds, ?reducer_json, ?reducer_filters,
    ?reducer_focus, ?reducer_dataPaths, ?reducer_sort, ?reducer_expandMode,
    ?reducer_expandedRecords, ?reducer_read_array, ?reducer_read_table,
    ?reducer_read_set;
  unfold handleAction; unfold_store; reduce_fields;
  unfold read_array, read_table, read_set; reduce_fields;
  rewrite ?lookup_insert_eq; reduce_fields.

(** The derived data after one of the five actions, by value. *)
Lemma replaced_value s a w :
  wf_state w s -> replaces_input a = true ->
  let h := handleAction s a w in
  let r := reducer (Some s) a w in
  derived_value r.2 r.1
  = (fun stats => fullModuleData stats (selectedChunkId h.1)
                    (read_array h.2 (blacklistedModuleIds h.1)))
    <$> document h.2 h.1.
Proof.
  intros Hwf Ha h r.
  pose proof (replaces_input_differs s a w Hwf Ha) as Hdiff.
  destruct (reducer_rederives s a w Hdiff) as [Hder _]. fold r in Hder.
  rewrite (derived_value_in_step _ _ Hder). subst r h.
  by rewrite reducer_document, reducer_selectedChunkId,
    reducer_blacklistedModuleIds, reducer_read_array.
Qed.

(** ** Selecting a file and a chunk *)

(** X7: [pickDataPath(path)] selects the file and discards the chunk, the
    blacklist, the expanded records and the focus, also when the file was
    selected already.  A status that the path has is kept; a path without
    one gets ['unknown'], or the inherited value when it is the name of a
    property of [Object.prototype]; no other status changes.  From a
    well-formed state the derived data is then the derivation, with no
    chunk and nothing excluded, of what the read [json[path]] finds, and
    [null] when the path is the empty string or the read finds
    nothing. *)
Theorem X7_pickDataPath_resets s (path : string) w :
  let r := reducer (Some s) (pickDataPath path) w in
  selectedFilename r.1 = Some path
  ∧ selectedChunkId r.1 = None
  ∧ read_array r.2 (blacklistedModuleIds r.1) = []
  ∧ read_set r.2 (expandedRecords r.1) = ∅
  ∧ expandMode r.1 = collapse_all
  ∧ currentlyFocusedElementID r.1 = None
  ∧ (∀ status : Value DataPathState,
       dataPaths s !! path = Some status ->
       dataPaths r.1 !! path = Some status)
  ∧ (dataPaths s !! path = None ->
     dataPaths r.1 !! path
     = Some (if inherited path then prototype_value path
             else value unknown))
  ∧ (∀ q : string, q ≠ path -> dataPaths r.1 !! q = dataPaths s !! q)
  ∧ (wf_state w s ->
     derived_value r.2 r.1
     = (fun stats => fullModuleData stats None [])
       <$> (if decide (path = "") then None
            else property value (read_table w (json s)) path)).
Proof.
  cbv zeta. repeat split; try (by to_handleAction).
  - intros status Hstatus. to_handleAction.
    by rewrite lookup_union, Hstatus, union_Some_l.
  - intros Hnone. to_handleAction.
    rewrite lookup_union, Hnone, (left_id_L None _), lookup_singleton_eq.
    unfold property. rewrite Hnone. by destruct (inherited path).
  - intros q Hq. to_handleAction.
    rewrite lookup_union, lookup_singleton_ne by done.
    by rewrite (right_id_L None _).
  - intros Hwf. rewrite (replaced_value s (pickDataPath path) w Hwf eq_refl).
    unfold document, selected_document, truthy. to_handleAction.
    case_decide as Hpath.
    + by rewrite bool_decide_eq_false_2 by naive_solver.
    + by rewrite bool_decide_eq_true_2.
Qed.

(** X8: [onPickedChunk(chunkId)] selects the chunk under the text that
    [String] gives for it, so that two identifiers with the same text
    lead to the same state, and discards the blacklist, the expanded
    records and the focus.  The selected file and the [json] table stay.
    From a well-formed state the derived data is then the derivation, for
    that chunk and with nothing excluded, of what the read
    [json[selectedFilename]] finds, and [null] when no file is selected
    or the read finds nothing. *)
Theorem X8_onPickedChunk_resets s (chunkId : ChunkID) w :
  let r := reducer (Some s) (onPickedChunk chunkId) w in
  selectedChunkId r.1 = Some (IdStr (js_String chunkId))
  ∧ (∀ other : ChunkID,
       js_String other = js_String chunkId ->
       reducer (Some s) (onPickedChunk other) w = r)
  ∧ read_array r.2 (blacklistedModuleIds r.1) = []
  ∧ read_set r.2 (expandedRecords r.1) = ∅
  ∧ expandMode r.1 = collapse_all
  ∧ currentlyFocusedElementID r.1 = None
  ∧ selectedFilename r.1 = selectedFilename s
  ∧ json r.1 = json s
  ∧ (wf_state w s ->
     derived_value r.2 r.1
     = (fun stats =>
          fullModuleData stats (Some (IdStr (js_String chunkId))) [])
       <$> document w s).
Proof.
  cbv zeta. repeat split; try (by to_handleAction).
  - intros other Hother. unfold reducer, handleAction. by rewrite Hother.
  - intros Hwf.
    rewrite (replaced_value s (onPickedChunk chunkId) w Hwf eq_refl).
    unfold document. by to_handleAction.
Qed.

(** ** Loading a document *)

(** X9: [loadedStatsAtPath(path, stats)] stores the document under the
    path, in place of any document stored there before, keeps every other
    document, and marks the path ['ready'] without changing another
    status.  From a well-formed state in which the path is the selected
    file, the derived data is then the derivation of the new document
    with the chunk and the blacklist of the state. *)
Theorem X9_loadedStatsAtPath_stores s (path : string) (stats : RawStats) w :
  let r := reducer (Some s) (loadedStatsAtPath path stats) w in
  read_table r.2 (json r.1) !! path = Some stats
  ∧ (∀ q : string,
       q ≠ path ->
       read_table r.2 (json r.1) !! q = read_table w (json s) !! q)
  ∧ dataPaths r.1 !! path = Some (value ready)
  ∧ (∀ q : string, q ≠ path -> dataPaths r.1 !! q = dataPaths s !! q)
  ∧ (wf_state w s -> selectedFilename s = Some path -> path ≠ "" ->
     derived_value r.2 r.1
     = Some (fullModuleData (value stats) (selectedChunkId s)
               (read_array w (blacklistedModuleIds s)))).
Proof.
  cbv zeta. repeat split.
  - to_handleAction. by rewrite lookup_insert_eq.
  - intros q Hq. to_handleAction. by rewrite lookup_insert_ne.
  - by to_handleAction.
  - intros q Hq. to_handleAction. by rewrite lookup_insert_ne.
  - intros Hwf Hfile Hpath.
    rewrite (replaced_value s (loadedStatsAtPath path stats) w Hwf eq_refl).
    unfold document, selected_document, truthy. to_handleAction.
    rewrite Hfile, bool_decide_eq_true_2 by done.
    unfold property. by rewrite lookup_insert_eq.
Qed.

(** ** Excluding and including modules *)

(** X10: [onRemoveModule(moduleID)] makes the blacklist one entry longer,
    with the module last, whether or not it was excluded already.  From a
    well-formed state the derived data is then the derivation, with that
    blacklist, of what the read [json[selectedFilename]] finds, and
    [null] when no file is selected or the read finds nothing. *)
Theorem X10_onRemoveModule_appends s (m : ModuleID) w :
  let r := reducer (Some s) (onRemoveModule m) w in
  let blacklist := read_array w (blacklistedModuleIds s) ++ [m] in
  read_array r.2 (blacklistedModuleIds r.1) = blacklist
  ∧ length (read_array r.2 (blacklistedModuleIds r.1))
    = S (length (read_array w (blacklistedModuleIds s)))
  ∧ (wf_state w s ->
     derived_value r.2 r.1
     = (fun stats => fullModuleData stats (selectedChunkId s) blacklist)
       <$> document w s).
Proof.
  cbv zeta.
  assert (Helems :
    read_array (reducer (Some s) (onRemoveModule m) w).2
      (blacklistedModuleIds (reducer (Some s) (onRemoveModule m) w).1)
    = read_array w (blacklistedModuleIds s) ++ [m]) by (by to_handleAction).
  rewrite Helems. repeat split.
  - rewrite length_app. simpl. lia.
  - intros Hwf.
    rewrite (replaced_value s (onRemoveModule m) w Hwf eq_refl).
    unfold document. by to_handleAction.
Qed.

(** The blacklist after [onIncludeModule]. *)
Lemma onIncludeModule_elements s (m : ModuleID) w :
  read_array (reducer (Some s) (onIncludeModule m) w).2
    (blacklistedModuleIds (reducer (Some s) (onIncludeModule m) w).1)
  = filter (fun id => js_String id ≠ js_String m)
           (read_array w (blacklistedModuleIds s)).
Proof. by to_handleAction. Qed.

(** X11: [onIncludeModule(moduleID)] removes from the blacklist every
    entry that [String] makes equal to the module, a number as well as
    the text [String] gives for it, and keeps the others in their order.
    Including the module again removes nothing more, and a module that
    is not excluded leaves the entries as they are. *)
Theorem X11_onIncludeModule_removes_all s (m : ModuleID) w :
  let old := read_array w (blacklistedModuleIds s) in
  let r1 := reducer (Some s) (onIncludeModule m) w in
  let r2 := reducer (Some r1.1) (onIncludeModule m) r1.2 in
  let new := read_array r1.2 (blacklistedModuleIds r1.1) in
  (∀ id : ModuleID, id ∈ new ↔ id ∈ old ∧ js_String id ≠ js_String m)
  ∧ new `sublist_of` old
  ∧ read_array r2.2 (blacklistedModuleIds r2.1) = new
  ∧ (Forall (fun id => js_String id ≠ js_String m) old -> new = old).
Proof.
  cbv zeta. rewrite !onIncludeModule_elements.
  split; [|split; [|split]].
  - intros id. rewrite list_elem_of_filter. naive_solver.
  - apply sublist_filter.
  - rewrite list_filter_filter. apply list_filter_iff. naive_solver.
  - generalize (read_array w (blacklistedModuleIds s)). intros l Hall.
    induction Hall as [|x l Hx _ IH]; [done|].
    rewrite filter_cons_True by done. by f_equal.
Qed.

(** ** Expanded records and focus *)

(** What [onExpandRecords] does: the new set is a copy of the old one
    with the module added, and the mode is ['manual']. *)
Lemma expand_records s (m : ModuleID) w :
  let r := reducer (Some s) (onExpandRecords m) w in
  read_set r.2 (expandedRecords r.1) = {[m]} ∪ read_set w (expandedRecords s)
  ∧ expandMode r.1 = manual.
Proof. cbv zeta. split; by to_handleAction. Qed.

(** X12: [onExpandRecords(m)] followed by [onCollapseRecords(m)] gives
    back the records that were expanded, without [m]; the mode is
    ['manual'] after each of the two, also when no record is left
    expanded. *)
Theorem X12_expand_then_collapse s (m : ModuleID) w :
  let old := read_set w (expandedRecords s) in
  let r1 := reducer (Some s) (onExpandRecords m) w in
  let r2 := reducer (Some r1.1) (onCollapseRecords m) r1.2 in
  read_set r1.2 (expandedRecords r1.1) = {[m]} ∪ old
  ∧ expandMode r1.1 = manual
  ∧ read_set r2.2 (expandedRecords r2.1) = old ∖ {[m]}
  ∧ (m ∉ old -> read_set r2.2 (expandedRecords r2.1) = old)
  ∧ expandMode r2.1 = manual.
Proof.
  intros old r1 r2.
  destruct (expand_records s m w) as [Hset1 Hmode1]. fold r1 old in Hset1, Hmode1.
  destruct (collapse_records r1.1 m r1.2) as [Hset2 Hmode2].
  fold r2 in Hset2, Hmode2. rewrite Hset1 in Hset2, Hmode2.
  assert (({[m]} ∪ old) ∖ {[m]} = old ∖ {[m]}) as Hdiff by set_solver.
  rewrite Hdiff in Hset2.
  repeat split; try done.
  - intros Hnotin. rewrite Hset2. set_solver.
  - rewrite Hmode2. case_decide as Hsize; [|done].
    apply size_empty_inv in Hsize. set_solver.
Qed.

(** [calculateFullModuleData] does not look at the focus. *)
Lemma calculate_focus (old new : State) (e : option string) w :
  calculateFullModuleData old (set_currentlyFocusedElementID e new) w
  = (set_currentlyFocusedElementID e (calculateFullModuleData old new w).1,
     (calculateFullModuleData old new w).2).
Proof.
  unfold calculateFullModuleData. unfold_store. reduce_fields.
  destruct (selected_document _ _); [case_decide|]; done.
Qed.

(** X13: [onFocusChanged(elementID)] records the focus.  When the
    identifier is [null] or empty, or the state has no derived data, the
    transition is otherwise that of an action the reducer does not know.
    When the derived data has module records and the focused module has a
    collapsible parent, the transition is that of [onExpandRecords] of
    the parent, with the focus recorded; when it has none, it is again
    that of an unknown action. *)
Theorem X13_onFocusChanged_reveals_parent s (e : option string) w :
  let r := reducer (Some s) (onFocusChanged e) w in
  let with_focus (t : State * World) :=
    (set_currentlyFocusedElementID e t.1, t.2) in
  currentlyFocusedElementID r.1 = e
  ∧ (truthy e = false ∨ calculatedFullModuleData s = None ->
     r = with_focus (reducer (Some s) (otherAction "") w))
  ∧ (∀ (id : string) (data : FullModuleDataType)
       (records : list ExtendedModule) (l : loc),
       e = Some id -> id ≠ "" ->
       calculatedFullModuleData s = Some l -> read_fmd w l = Some data ->
       extendedModules data = Some records ->
       r = with_focus
             (reducer (Some s)
                match getCollapsableParentOf (getModulesById records) id with
                | Some parent => onExpandRecords (module_id parent)
                | None => otherAction ""
                end w)).
Proof.
  cbv zeta. split; [to_handleAction; by repeat case_match|]. split.
  - intros Hnone. rewrite !reducer_eq.
    unfold handleAction. unfold_store. reduce_fields.
    rewrite <- calculate_focus.
    destruct Hnone as [-> | ->]; [done|].
    by destruct (if truthy e then e else None).
  - intros id data records l -> Hid Hl Hdata Hrecords.
    assert (truthy (Some id) = true) as Htruthy
      by (by apply bool_decide_eq_true_2).
    rewrite !reducer_eq.
    unfold handleAction. unfold_store. reduce_fields.
    rewrite Hl, Hdata, Hrecords, Htruthy.
    destruct (getCollapsableParentOf _ _) as [parent|]; reduce_fields;
      by rewrite <- calculate_focus.
Qed.

(** ** What no action undoes *)

(** X14: no action removes a path from the status table, and a path that
    is ['ready'] stays ['ready'] under every action other than
    [erroredAtPath] of that path. *)
Theorem X14_status_is_kept s a w (p : string) :
  let r := reducer (Some s) a w in
  (is_Some (dataPaths s !! p) -> is_Some (dataPaths r.1 !! p))
  ∧ (dataPaths s !! p = Some (value ready) ->
     (∀ err : string, a ≠ erroredAtPath p err) ->
     dataPaths r.1 !! p = Some (value ready)).
Proof.
  cbv zeta. rewrite reducer_dataPaths. split.
  - intros [status Hp].
    destruct a; unfold handleAction; unfold_store; reduce_fields;
      repeat case_match; reduce_fields;
      first
        [ by rewrite Hp
        | by rewrite lookup_union, Hp, union_Some_l
        | rewrite lookup_insert;
          match goal with
          | |- context [decide (?x = p)] => destruct (decide (x = p))
          end; by rewrite ?Hp ].
  - intros Hp Hnot.
    destruct a; unfold handleAction; unfold_store; reduce_fields;
      repeat case_match; reduce_fields;
      first
        [ by rewrite Hp
        | by rewrite lookup_union, Hp, union_Some_l
        | rewrite lookup_insert;
          match goal with
          | |- context [decide (?x = p)] => destruct (decide (x = p))
          end; subst;
          first [ done | congruence | by destruct (Hnot err)
                | by apply property_ready in Hp ] ].
Qed.

(** X15: a document stored in the [json] table stays stored, unchanged,
    under every action other than [loadedStatsAtPath] of its path. *)
Theorem X15_documents_are_kept s a w (p : string) (doc : RawStats) :
  read_table w (json s) !! p = Some doc ->
  (∀ stats : RawStats, a ≠ loadedStatsAtPath p stats) ->
  let r := reducer (Some s) a w in
  read_table r.2 (json r.1) !! p = Some doc.
Proof.
  intros Hp Hnot. cbv zeta. rewrite reducer_json, reducer_read_table.
  destruct a; unfold handleAction; unfold_store; reduce_fields;
    repeat case_match; reduce_fields; try done.
  unfold read_table at 1. reduce_fields. rewrite lookup_insert_eq.
  reduce_fields. rewrite lookup_insert_ne; [done|].
  intros ->. by destruct (Hnot stats).
Qed.

(** X16: each field has its own actions.  The sort changes under
    [onSorted] only, the filters under [onFiltered] only, the selected
    file under [pickDataPath] only, the selected chunk under
    [pickDataPath] and [onPickedChunk] only, the focus under these two and
    [onFocusChanged] only, and the status table under the five actions on
    paths only. *)
Theorem X16_fields_have_their_actions s a w :
  let r := reducer (Some s) a w in
  match a with onSorted _ => True | _ => sort r.1 = sort s end
  ∧ match a with onFiltered _ => True | _ => filters r.1 = filters s end
  ∧ match a with
    | pickDataPath _ => True
    | _ => selectedFilename r.1 = selectedFilename s
    end
  ∧ match a with
    | pickDataPath _ | onPickedChunk _ => True
    | _ => selectedChunkId r.1 = selectedChunkId s
    end
  ∧ match a with
    | pickDataPath _ | onPickedChunk _ | onFocusChanged _ => True
    | _ => currentlyFocusedElementID r.1 = currentlyFocusedElementID s
    end
  ∧ match a with
    | discoveredDataPaths _ | pickDataPath _ | requestedDataAtPath _
    | loadedStatsAtPath _ _ | erroredAtPath _ _ => True
    | _ => dataPaths r.1 = dataPaths s
    end.
Proof.
  cbv zeta.
  rewrite reducer_sort, reducer_filters, reducer_selectedFilename,
    reducer_selectedChunkId, reducer_focus, reducer_dataPaths.
  destruct a; unfold handleAction; unfold_store; reduce_fields;
    repeat case_match; by reduce_fields.
Qed.

(** The status table after [requestedDataAtPath]. *)
Lemma requestedDataAtPath_dataPaths s (p : string) w :
  dataPaths (reducer (Some s) (requestedDataAtPath p) w).1
  = <[p := if decide (dataPaths s !! p = Some (value ready))
           then value ready else value loading]> (dataPaths s).
Proof.
  rewrite reducer_dataPaths. unfold handleAction. unfold_store.
  reduce_fields. f_equal. apply decide_ext, property_ready.
Qed.

(** X17: a path that is not ['ready'], be it unknown to the table,
    ['unknown'], ['loading'] or in ['error'], is ['loading'] after
    [requestedDataAtPath]; no other status changes, and a second request
    changes nothing more. *)
Theorem X17_requestedDataAtPath_marks_loading s (p : string) w :
  let r1 := reducer (Some s) (requestedDataAtPath p) w in
  let r2 := reducer (Some r1.1) (requestedDataAtPath p) r1.2 in
  (dataPaths s !! p ≠ Some (value ready) ->
   dataPaths r1.1 !! p = Some (value loading))
  ∧ (∀ q : string, q ≠ p -> dataPaths r1.1 !! q = dataPaths s !! q)
  ∧ dataPaths r2.1 = dataPaths r1.1.
Proof.
  cbv zeta. rewrite !requestedDataAtPath_dataPaths.
  rewrite lookup_insert_eq. repeat split.
  - intros Hp. by rewrite decide_False.
  - intros q Hq. by rewrite lookup_insert_ne.
  - rewrite insert_insert_eq. f_equal. by repeat case_decide.
Qed.

(** ** The post-processing step, again *)

(** [calculateFullModuleData] changes nothing when it is given its own
    result as the state before and after. *)
Lemma calculate_idempotent (old new : State) w :
  let r := calculateFullModuleData old new w in
  calculateFullModuleData r.1 r.1 r.2 = r.
Proof.
  cbv zeta.
  pose proof (calculate_frame old new w) as (Hs & _ & _ & Htab).
  pose proof (calculate_cases old new w) as Hc. cbv zeta in Hc.
  destruct (calculateFullModuleData old new w) as [s1 w1] eqn:Hr.
  reduce_fields.
  pose proof (calculate_cases s1 s1 w1) as Hc1. cbv zeta in Hc1.
  assert (selected_document (read_table w1 (json s1)) (selectedFilename s1)
          = selected_document (read_table w (json new)) (selectedFilename new))
    as Hdoc.
  { unfold read_table. rewrite Htab, Hs. done. }
  rewrite Hdoc in Hc1.
  destruct (selected_document _ _) as [stats|].
  - by rewrite decide_True in Hc1.
  - injection Hc as -> ->. by rewrite Hc1.
Qed.

(** X18: after any transition, an action that the reducer does not know
    returns the state and the store exactly as they are. *)
Theorem X18_unknown_action_after_any_transition s a w (type : string) :
  let r := reducer (Some s) a w in
  reducer (Some r.1) (otherAction type) r.2 = r.
Proof.
  cbv zeta. rewrite (reducer_eq _ (otherAction type)).
  unfold handleAction at 1 2. unfold_store. reduce_fields.
  rewrite reducer_eq. apply calculate_idempotent.
Qed.

(** ** Sequences of actions *)

Lemma dispatch_reachable (actions : list Action) s w :
  reachable w s ->
  reachable (dispatch actions s w).2 (dispatch actions s w).1.
Proof.
  revert s w. induction actions as [|a actions IH]; intros s w Hreach.
  - done.
  - unfold dispatch. cbn [foldl]. reduce_fields.
    destruct (reducer (Some s) a w) as [s1 w1] eqn:Hr.
    apply (IH s1 w1).
    replace s1 with (reducer (Some s) a w).1 by (by rewrite Hr).
    replace w1 with (reducer (Some s) a w).2 by (by rewrite Hr).
    by constructor.
Qed.

(** X19: whatever actions are dispatched from [INITIAL_STATE], the
    derived data of the state reached is [null] exactly when no file is
    selected, the selected file is the empty string, or the read
    [json[selectedFilename]] finds nothing, neither a document nor a
    property inherited from [Object.prototype]; otherwise it is the
    derivation of what the read finds with the selected chunk and the
    blacklist of the state. *)
Theorem X19_derived_data_in_step (actions : list Action) :
  let r := dispatch actions INITIAL_STATE initial_world in
  (calculatedFullModuleData r.1 = None ↔ document r.2 r.1 = None)
  ∧ derived_value r.2 r.1
    = (fun stats => fullModuleData stats (selectedChunkId r.1)
                      (read_array r.2 (blacklistedModuleIds r.1)))
      <$> document r.2 r.1.
Proof.
  cbv zeta.
  pose proof (dispatch_reachable actions _ _ reachable_initial) as Hreach.
  split; [by apply reachable_null_iff|].
  apply derived_value_in_step. by apply reachable_invariant.
Qed.

(** ** The state passed in *)

(** X20: from a well-formed state, every action other than
    [onExpandRecords] and [onFocusChanged] leaves the state it is given
    as it was, object by object.  [onExpandRecords], and [onFocusChanged]
    when it finds a collapsible parent, change it exactly when the record
    they add was not expanded already: it is then added to the set of the
    state passed in. *)
Theorem X20_input_state_after s a w :
  wf_state w s ->
  let r := reducer (Some s) a w in
  let old := read_set w (expandedRecords s) in
  match a with
  | onExpandRecords _ | onFocusChanged _ => True
  | _ => state_value r.2 s = state_value w s
  end
  ∧ (state_value r.2 s = state_value w s
     ↔ ∀ m : ModuleID, added_record w s a = Some m -> m ∈ old)
  ∧ (∀ m : ModuleID,
       added_record w s a = Some m ->
       read_set r.2 (expandedRecords s) = {[m]} ∪ old).
Proof.
  intros Hwf r old.
  destruct (reducer_input_after s a w Hwf) as (Harr & Htab & Hval & Hset).
  fold r old in Harr, Htab, Hval, Hset.
  assert (Hiff : state_value r.2 s = state_value w s
                 ↔ read_set r.2 (expandedRecords s) = old).
  { unfold state_value. rewrite Harr, Htab, Hval. fold old.
    split; [by intros [= ->]|by intros ->]. }
  split; [|split].
  - destruct a; try done; apply Hiff; by rewrite Hset.
  - rewrite Hiff, Hset. destruct (added_record w s a) as [m|].
    + split.
      * intros Heq m' [= <-]. set_solver.
      * intros Hin. specialize (Hin m eq_refl). set_solver.
    + split; [by intros _ m'|done].
  - intros m Hm. by rewrite Hset, Hm.
Qed.

(** ** Picking a file and loading its document, in either order *)

(** X21: from a well-formed state, [pickDataPath(path)] followed by
    [loadedStatsAtPath(path, stats)], or the two in the other order, both
    end with the derivation of [stats] with no chunk and nothing excluded
    (for a path that is not the empty string). *)
Theorem X21_pick_and_load_commute s (path : string) (stats : RawStats) w :
  wf_state w s -> path ≠ "" ->
  let picked := reducer (Some s) (pickDataPath path) w in
  let picked_loaded :=
    reducer (Some picked.1) (loadedStatsAtPath path stats) picked.2 in
  let loaded := reducer (Some s) (loadedStatsAtPath path stats) w in
  let loaded_picked := reducer (Some loaded.1) (pickDataPath path) loaded.2 in
  derived_value picked_loaded.2 picked_loaded.1
  = Some (fullModuleData (value stats) None [])
  ∧ derived_value loaded_picked.2 loaded_picked.1
    = Some (fullModuleData (value stats) None []).
Proof.
  intros Hwf Hpath picked picked_loaded loaded loaded_picked. split.
  - assert (Hwf1 : wf_state picked.2 picked.1) by (by apply reducer_wf).
    assert (Hfile : selectedFilename picked.1 = Some path)
      by (subst picked; by to_handleAction).
    assert (Hchunk : selectedChunkId picked.1 = None)
      by (subst picked; by to_handleAction).
    assert (Hbl : read_array picked.2 (blacklistedModuleIds picked.1) = [])
      by (subst picked; by to_handleAction).
    subst picked_loaded.
    rewrite (replaced_value picked.1 (loadedStatsAtPath path stats) picked.2
               Hwf1 eq_refl).
    unfold document, selected_document, truthy.
    unfold handleAction. unfold_store. reduce_fields.
    rewrite Hfile, Hchunk, bool_decide_eq_true_2 by done.
    unfold read_table, read_array, property in *. reduce_fields.
    rewrite lookup_insert_eq. reduce_fields.
    by rewrite lookup_insert_eq, Hbl.
  - assert (Hwf1 : wf_state loaded.2 loaded.1) by (by apply reducer_wf).
    assert (Hdoc : read_table loaded.2 (json loaded.1) !! path = Some stats).
    { subst loaded. to_handleAction. by rewrite lookup_insert_eq. }
    subst loaded_picked.
    rewrite (replaced_value loaded.1 (pickDataPath path) loaded.2
               Hwf1 eq_refl).
    unfold document, selected_document, truthy.
    unfold handleAction. unfold_store. reduce_fields.
    rewrite bool_decide_eq_true_2 by done.
    unfold read_table, property in *. reduce_fields. rewrite Hdoc.
    unfold read_array. reduce_fields. by rewrite lookup_insert_eq.
Qed.

End Properties.

(** * The reducer on concrete inputs *)

Section Examples.

Import Fixture.

(** C1: with ['m'] the only expanded record and the mode ['manual'],
    [onCollapseRecords('m')] empties the set and the mode is still
    ['manual']: the size that is tested is that of the set before the
    removal. *)
Lemma C1_collapse_last_record_stays_manual :
  let s := (run [onExpandRecords (IdStr "m")] INITIAL_STATE initial_world).1 in
  let w := (run [onExpandRecords (IdStr "m")] INITIAL_STATE initial_world).2 in
  let r := reducer (Some s) (onCollapseRecords (IdStr "m")) w in
  expandMode s = manual
  ∧ read_set w (expandedRecords s) = {[IdStr "m"]}
  ∧ read_set r.2 (expandedRecords r.1) = ∅
  ∧ expandMode r.1 = manual.
Proof. cbv zeta. compute_done. Qed.

(** C3: [onExpandRecords('m')] on [INITIAL_STATE] adds ['m'] to the set
    that [INITIAL_STATE] itself holds: the state passed in is not the
    value it was before the call. *)
Lemma C3_onExpandRecords_mutates_input :
  let r := reducer (Some INITIAL_STATE) (onExpandRecords (IdStr "m"))
             initial_world in
  read_set initial_world (expandedRecords INITIAL_STATE) = ∅
  ∧ read_set r.2 (expandedRecords INITIAL_STATE) = {[IdStr "m"]}
  ∧ state_value r.2 INITIAL_STATE ≠ state_value initial_world INITIAL_STATE.
Proof.
  cbv zeta.
  assert (Hbefore :
    read_set initial_world (expandedRecords INITIAL_STATE) = ∅)
    by compute_done.
  assert (Hafter :
    read_set
      (reducer (Some INITIAL_STATE) (onExpandRecords (IdStr "m"))
         initial_world).2 (expandedRecords INITIAL_STATE)
    = {[IdStr "m"]}) by compute_done.
  split; [exact Hbefore|]. split; [exact Hafter|].
  unfold state_value. intros Hsame.
  assert (Hsets :
    read_set
      (reducer (Some INITIAL_STATE) (onExpandRecords (IdStr "m"))
         initial_world).2 (expandedRecords INITIAL_STATE)
    = read_set initial_world (expandedRecords INITIAL_STATE))
    by congruence.
  rewrite Hbefore, Hafter in Hsets.
  assert (IdStr "m" ∈ (∅ : gset ModuleID)) as Hin
    by (rewrite <- Hsets; by apply elem_of_singleton).
  by apply not_elem_of_empty in Hin.
Qed.

Lemma loaded_reachable : reachable loaded.2 loaded.1.
Proof.
  apply (reachable_step _ _ (loadedStatsAtPath "stats.json" doc)).
  apply (reachable_step _ _ (pickDataPath "stats.json")).
  apply reachable_initial.
Qed.

Lemma loaded_wf : wf_state loaded.2 loaded.1.
Proof. apply reachable_invariant, loaded_reachable. Qed.

Lemma initial_wf : wf_state initial_world INITIAL_STATE.
Proof. apply reachable_invariant, reachable_initial. Qed.

(** C2 on a loaded document: [onSorted] leaves the four inputs
    identical, nothing is derived and the derived data is the reference
    it was. *)
Lemma C2_witness :
  let s := loaded.1 in
  let r := reducer (Some s) (onSorted "id") loaded.2 in
  (reachable loaded.2 s
   ∧ json r.1 = json s
   ∧ selectedFilename r.1 = selectedFilename s
   ∧ selectedChunkId r.1 = selectedChunkId s
   ∧ blacklistedModuleIds r.1 = blacklistedModuleIds s)
  ∧ calculatedFullModuleData r.1 = calculatedFullModuleData s
  ∧ derivations r.2 = derivations loaded.2.
Proof.
  cbv zeta.
  assert (Hsame :
    let s := loaded.1 in
    let r := reducer (Some s) (onSorted "id") loaded.2 in
    json r.1 = json s
    ∧ selectedFilename r.1 = selectedFilename s
    ∧ selectedChunkId r.1 = selectedChunkId s
    ∧ blacklistedModuleIds r.1 = blacklistedModuleIds s)
    by (vm_compute; by repeat split).
  cbv zeta in Hsame. split; [exact (conj loaded_reachable Hsame)|].
  destruct Hsame as (Hjson & Hfile & Hchunk & Hbl).
  exact (C2_no_change_no_derivation loaded.2 loaded.1 (onSorted "id")
           loaded_reachable Hjson Hfile Hchunk Hbl).
Defined.

(** C4 on a loaded document: an action of an unknown type returns the
    state and the store as they are. *)
Lemma C4_witness :
  reachable loaded.2 loaded.1
  ∧ reducer (Some loaded.1) (otherAction "@@INIT") loaded.2
    = (loaded.1, loaded.2).
Proof.
  split; [exact loaded_reachable|].
  exact (C4_unrecognized_action loaded.2 loaded.1 "@@INIT" loaded_reachable).
Defined.


(** Picking the path ['constructor'] from [INITIAL_STATE]: no document
    is stored under it, the reads [dataPaths['constructor']] and
    [json['constructor']] find the property inherited from
    [Object.prototype], and a derivation is made of it. *)
Lemma pick_inherited_name :
  let r := reducer (Some INITIAL_STATE) (pickDataPath "constructor")
             initial_world in
  read_table r.2 (json r.1) !! "constructor" = None
  ∧ dataPaths r.1 !! "constructor" = Some (prototype_value "constructor")
  ∧ derivations r.2 = [(prototype_value "constructor", None, [])]
  ∧ calculatedFullModuleData r.1 = Some 1%positive.
Proof. cbv zeta. repeat split; vm_compute; reflexivity. Qed.


(** C5 on a loaded document: its path is ['ready'] and stays so when
    it is requested again. *)
Lemma C5_witness :
  let s := loaded.1 in
  dataPaths s !! "stats.json" = Some (value ready)
  ∧ dataPaths
      (reducer (Some s) (requestedDataAtPath "stats.json") loaded.2).1
    !! "stats.json" = Some (value ready).
Proof.
  cbv zeta.
  assert (Hready : dataPaths loaded.1 !! "stats.json" = Some (value ready))
    by (by vm_compute).
  split; [exact Hready|].
  destruct (C5_ready_not_regressed loaded.1 "stats.json" loaded.2)
    as [Hkept _].
  exact (Hkept Hready).
Defined.

(** C6 on a loaded document: removing module [1] changes the derived
    data, and including it again gives the data back. *)
Lemma C6_witness :
  let s := loaded.1 in
  let r1 := reducer (Some s) (onRemoveModule (IdNum n1)) loaded.2 in
  let r2 := reducer (Some r1.1) (onIncludeModule (IdNum n1)) r1.2 in
  (derived loaded.2 s
   ∧ Forall (fun id => js_String id ≠ js_String (IdNum n1))
            (read_array loaded.2 (blacklistedModuleIds s)))
  ∧ derived_value r1.2 r1.1 ≠ derived_value loaded.2 s
  ∧ derived_value r2.2 r2.1 = derived_value loaded.2 s.
Proof.
  cbv zeta.
  assert (Hder : derived loaded.2 loaded.1).
  { apply reachable_invariant.
    apply (reachable_step _ _ (loadedStatsAtPath "stats.json" doc)).
    apply (reachable_step _ _ (pickDataPath "stats.json")).
    apply reachable_initial. }
  assert (Hall : Forall (fun id => js_String id ≠ js_String (IdNum n1))
                        (read_array loaded.2 (blacklistedModuleIds loaded.1)))
    by (vm_compute; constructor).
  split; [exact (conj Hder Hall)|]. split; [by vm_compute|].
  exact (C6_remove_then_include loaded.1 (IdNum n1) loaded.2 Hder Hall).
Defined.

(** C7 from the initial sort, ['cumulativeSize'] descending: the same
    field gives ascending, the field ['id'] gives descending. *)
Lemma C7_witness :
  let s := loaded.1 in
  (field (sort s) = "cumulativeSize" ∧ direction (sort s) = DESC)
  ∧ direction (sort (reducer (Some s) (onSorted "cumulativeSize") loaded.2).1)
    = ASC
  ∧ direction (sort (reducer (Some s) (onSorted "id") loaded.2).1) = DESC.
Proof.
  cbv zeta.
  assert (Hfield : field (sort loaded.1) = "cumulativeSize")
    by (by vm_compute).
  assert (Hdir : direction (sort loaded.1) = DESC) by (by vm_compute).
  split; [exact (conj Hfield Hdir)|]. split.
  - destruct (C7_onSorted_toggles loaded.1 "cumulativeSize" loaded.2)
      as (_ & Hsame & _).
    destruct (Hsame (eq_sym Hfield)) as [_ Hdesc].
    exact (Hdesc Hdir).
  - destruct (C7_onSorted_toggles loaded.1 "id" loaded.2) as (_ & _ & Hother).
    apply Hother. rewrite Hfield. discriminate.
Defined.

(** C9 with ['a'] and ['b'] expanded: collapsing ['c'], which is not
    expanded, leaves the mode ['manual']. *)
Lemma C9_witness :
  let s := expanded.1 in
  read_set expanded.2 (expandedRecords s) ≠ ∅
  ∧ expandMode (reducer (Some s) (onCollapseRecords (IdStr "c")) expanded.2).1
    = manual.
Proof.
  cbv zeta.
  assert (Hne : read_set expanded.2 (expandedRecords expanded.1) ≠ ∅)
    by compute_done.
  split; [exact Hne|].
  exact (C9_collapse_nonempty_sets_manual expanded.1 (IdStr "c") expanded.2
           Hne).
Defined.

(** C10 on a loaded document: after [erroredAtPath] its path is
    ['error'], and the store and every other field are as before. *)
Lemma C10_witness :
  let s := loaded.1 in
  let r := reducer (Some s) (erroredAtPath "stats.json" "failed") loaded.2 in
  is_Some (document loaded.2 s)
  ∧ dataPaths r.1 !! "stats.json" = Some (value error)
  ∧ r.2 = loaded.2
  ∧ set_dataPaths (dataPaths s) r.1 = s.
Proof.
  cbv zeta.
  assert (Hdoc : is_Some (document loaded.2 loaded.1))
    by (vm_compute; eauto).
  split; [exact Hdoc|].
  destruct (C10_erroredAtPath_frame loaded.1 "stats.json" "failed" loaded.2)
    as ((_ & Herr & _) & Hstore & Hpaths & _ & Hkept).
  split; [rewrite Hpaths; exact Herr|].
  split; [exact Hstore|].
  apply Hkept. left. exact Hdoc.
Defined.

(** ** The further properties on concrete inputs *)

(** X1 on [INITIAL_STATE]: a discovered path is ['unknown']. *)
Lemma X1_witness :
  let r := reducer (Some INITIAL_STATE) (discoveredDataPaths ["a"; "b"])
             initial_world in
  ("a" ∈ ["a"; "b"] ∧ dataPaths INITIAL_STATE !! "a" = None)
  ∧ dataPaths r.1 !! "a" = Some (value unknown).
Proof.
  cbv zeta.
  assert (Hin : "a" ∈ ["a"; "b"]) by apply list_elem_of_here.
  assert (Hnone : dataPaths INITIAL_STATE !! "a" = None) by done.
  split; [exact (conj Hin Hnone)|].
  destruct (X1_discoveredDataPaths_merges INITIAL_STATE ["a"; "b"]
              initial_world) as (_ & Hnew & _).
  exact (Hnew "a" Hin Hnone).
Defined.

(** X2: discovering the same paths again changes nothing. *)
Lemma X2_witness :
  let r1 := reducer (Some INITIAL_STATE) (discoveredDataPaths ["a"; "b"])
              initial_world in
  let r2 := reducer (Some r1.1) (discoveredDataPaths ["a"; "b"]) r1.2 in
  dataPaths r2.1 = dataPaths r1.1.
Proof.
  cbv zeta.
  destruct (X2_discoveredDataPaths_composes INITIAL_STATE ["a"; "b"]
              ["a"; "b"] initial_world) as [_ Hsame].
  exact (Hsame eq_refl).
Defined.

(** X3 from the initial sort: sorting by ['cumulativeSize'] twice gives
    it back. *)
Lemma X3_witness :
  let r1 := reducer (Some INITIAL_STATE) (onSorted "cumulativeSize")
              initial_world in
  let r2 := reducer (Some r1.1) (onSorted "cumulativeSize") r1.2 in
  "cumulativeSize" = field (sort INITIAL_STATE)
  ∧ sort r2.1 = sort INITIAL_STATE.
Proof.
  cbv zeta.
  assert (Hfield : "cumulativeSize" = field (sort INITIAL_STATE)) by done.
  split; [exact Hfield|].
  destruct (X3_onSorted_twice INITIAL_STATE "cumulativeSize" initial_world)
    as [Hsame _].
  exact (Hsame Hfield).
Defined.

(** X4: a name filter is merged into the initial filters. *)
Lemma X4_witness :
  let changes : gmap string string := {["moduleName" := "react"]} in
  let r := reducer (Some INITIAL_STATE) (onFiltered changes) initial_world in
  changes !! "moduleName" = Some "react"
  ∧ filters r.1 !! "moduleName" = Some "react".
Proof.
  cbv zeta.
  assert (Hk : ({["moduleName" := "react"]} : gmap string string)
               !! "moduleName" = Some "react") by done.
  split; [exact Hk|].
  destruct (X4_onFiltered_merges INITIAL_STATE {["moduleName" := "react"]}
              initial_world) as (Hnew & _).
  exact (Hnew "moduleName" "react" Hk).
Defined.

(** X5 on a loaded document: after [onRemoveModule] the derived data is
    in step again. *)
Lemma X5_witness :
  let r := reducer (Some loaded.1) (onRemoveModule (IdNum n1)) loaded.2 in
  (wf_state loaded.2 loaded.1
   ∧ replaces_input (onRemoveModule (IdNum n1)) = true)
  ∧ derived r.2 r.1.
Proof.
  cbv zeta. split; [exact (conj loaded_wf eq_refl)|].
  destruct (X5_replacing_actions_rederive loaded.1
              (onRemoveModule (@IdNum numbers n1))
              loaded.2 loaded_wf eq_refl) as [Hder _].
  exact Hder.
Defined.

(** X6 on a loaded document: [onSorted] derives nothing. *)
Lemma X6_witness :
  let r := reducer (Some loaded.1) (onSorted "id") loaded.2 in
  replaces_input (onSorted "id") = false
  ∧ derivations r.2 = derivations loaded.2.
Proof.
  cbv zeta. split; [reflexivity|].
  destruct (X6_other_actions_never_derive loaded.1 (onSorted "id") loaded.2
              eq_refl) as (_ & _ & _ & _ & Hlog & _).
  exact Hlog.
Defined.

(** X7: picking the loaded file again derives its document afresh. *)
Lemma X7_witness :
  let r := reducer (Some loaded.1) (pickDataPath "stats.json") loaded.2 in
  wf_state loaded.2 loaded.1
  ∧ derived_value r.2 r.1
    = (fun stats => fullModuleData stats None [])
      <$> property value (read_table loaded.2 (json loaded.1)) "stats.json".
Proof.
  cbv zeta. split; [exact loaded_wf|].
  destruct (X7_pickDataPath_resets loaded.1 "stats.json" loaded.2)
    as (_ & _ & _ & _ & _ & _ & _ & _ & _ & Hval).
  etrans; [exact (Hval loaded_wf)|].
  rewrite decide_False by discriminate. reflexivity.
Defined.

(** X8: picking chunk [3] on a loaded document. *)
Lemma X8_witness :
  let r := reducer (Some loaded.1) (onPickedChunk (IdNum n3)) loaded.2 in
  (js_String (IdStr "3") = js_String (IdNum n3) ∧ wf_state loaded.2 loaded.1)
  ∧ reducer (Some loaded.1) (onPickedChunk (IdStr "3")) loaded.2 = r
  ∧ derived_value r.2 r.1
    = (fun stats => fullModuleData stats (Some (IdStr "3")) [])
      <$> document loaded.2 loaded.1.
Proof.
  cbv zeta.
  assert (Htext : js_String (IdStr "3") = js_String (IdNum n3)) by done.
  split; [exact (conj Htext loaded_wf)|].
  destruct (X8_onPickedChunk_resets loaded.1 (@IdNum numbers n3) loaded.2)
    as (_ & Hother & _ & _ & _ & _ & _ & _ & Hval).
  split; [exact (Hother (IdStr "3") Htext)|exact (Hval loaded_wf)].
Defined.

(** X9: loading the document of the file that was picked first. *)
Lemma X9_witness :
  let picked := reducer (Some INITIAL_STATE) (pickDataPath "stats.json")
                  initial_world in
  let r := reducer (Some picked.1) (loadedStatsAtPath "stats.json" doc)
             picked.2 in
  (wf_state picked.2 picked.1
   ∧ selectedFilename picked.1 = Some "stats.json"
   ∧ "stats.json" ≠ "")
  ∧ derived_value r.2 r.1
    = Some (fullModuleData (value doc) (selectedChunkId picked.1)
              (read_array picked.2 (blacklistedModuleIds picked.1))).
Proof.
  cbv zeta.
  set (picked := reducer (Some INITIAL_STATE) (pickDataPath "stats.json")
                   initial_world).
  assert (Hwf : wf_state picked.2 picked.1).
  { apply reachable_invariant. apply reachable_step, reachable_initial. }
  assert (Hfile : selectedFilename picked.1 = Some "stats.json")
    by (by vm_compute).
  assert (Hpath : "stats.json" ≠ "") by discriminate.
  split; [exact (conj Hwf (conj Hfile Hpath))|].
  destruct (X9_loadedStatsAtPath_stores picked.1 "stats.json" doc picked.2)
    as (_ & _ & _ & _ & Hval).
  exact (Hval Hwf Hfile Hpath).
Defined.

(** X10: excluding module [1] of a loaded document. *)
Lemma X10_witness :
  let r := reducer (Some loaded.1) (onRemoveModule (IdNum n1)) loaded.2 in
  let blacklist :=
    read_array loaded.2 (blacklistedModuleIds loaded.1) ++ [IdNum n1] in
  wf_state loaded.2 loaded.1
  ∧ derived_value r.2 r.1
    = (fun stats =>
         fullModuleData stats (selectedChunkId loaded.1) blacklist)
      <$> document loaded.2 loaded.1.
Proof.
  cbv zeta. split; [exact loaded_wf|].
  destruct (X10_onRemoveModule_appends loaded.1 (@IdNum numbers n1) loaded.2)
    as (_ & _ & Hval).
  exact (Hval loaded_wf).
Defined.

(** X11: including a module that is not excluded, with module [0]
    excluded. *)
Lemma X11_witness :
  let s := (reducer (Some loaded.1) (onRemoveModule (IdNum n0)) loaded.2).1 in
  let w := (reducer (Some loaded.1) (onRemoveModule (IdNum n0)) loaded.2).2 in
  let r := reducer (Some s) (onIncludeModule (IdStr "1")) w in
  Forall (fun id => js_String id ≠ js_String (IdStr "1"))
         (read_array w (blacklistedModuleIds s))
  ∧ read_array r.2 (blacklistedModuleIds r.1)
    = read_array w (blacklistedModuleIds s).
Proof.
  cbv zeta.
  set (s := (reducer (Some loaded.1) (onRemoveModule (@IdNum numbers n0))
              loaded.2).1).
  set (w := (reducer (Some loaded.1) (onRemoveModule (@IdNum numbers n0))
              loaded.2).2).
  assert (Hall : Forall (fun id => js_String id ≠ js_String (IdStr "1"))
                        (read_array w (blacklistedModuleIds s))).
  { vm_compute. constructor; [discriminate|constructor]. }
  split; [exact Hall|].
  destruct (X11_onIncludeModule_removes_all s (IdStr "1") w)
    as (_ & _ & _ & Hsame).
  exact (Hsame Hall).
Defined.

(** X12 on [INITIAL_STATE]: expanding and collapsing a record leaves no
    record expanded. *)
Lemma X12_witness :
  let r1 := reducer (Some INITIAL_STATE) (onExpandRecords (IdStr "m"))
              initial_world in
  let r2 := reducer (Some r1.1) (onCollapseRecords (IdStr "m")) r1.2 in
  (IdStr "m" ∉ read_set initial_world (expandedRecords INITIAL_STATE))
  ∧ read_set r2.2 (expandedRecords r2.1)
    = read_set initial_world (expandedRecords INITIAL_STATE).
Proof.
  cbv zeta.
  assert (Hnotin :
    IdStr "m" ∉ read_set initial_world (expandedRecords INITIAL_STATE)).
  { intros Hin.
    assert (Hempty :
      read_set initial_world (expandedRecords INITIAL_STATE) = ∅)
      by (by vm_compute).
    rewrite Hempty in Hin. by apply not_elem_of_empty in Hin. }
  split; [exact Hnotin|].
  destruct (X12_expand_then_collapse INITIAL_STATE (IdStr "m") initial_world)
    as (_ & _ & _ & Hback & _).
  exact (Hback Hnotin).
Defined.

(** X13 on a loaded document: the focus on module ['lib'] expands its
    parent, module [1]. *)
Lemma X13_witness :
  let r := reducer (Some loaded.1) (onFocusChanged (Some "lib")) loaded.2 in
  let expanded_parent :=
    reducer (Some loaded.1) (onExpandRecords (IdNum n1)) loaded.2 in
  ("lib" ≠ ""
   ∧ calculatedFullModuleData loaded.1 = Some 1%positive
   ∧ read_fmd loaded.2 1%positive = Some doc
   ∧ extendedModules (doc : FullModuleDataType) = Some doc)
  ∧ r = (set_currentlyFocusedElementID (Some "lib") expanded_parent.1,
         expanded_parent.2).
Proof.
  cbv zeta.
  assert (Hid : "lib" ≠ "") by discriminate.
  assert (Hl : calculatedFullModuleData loaded.1 = Some 1%positive)
    by (by vm_compute).
  assert (Hdata : read_fmd loaded.2 1%positive = Some doc)
    by (by vm_compute).
  assert (Hrecords : extendedModules (doc : FullModuleDataType) = Some doc)
    by reflexivity.
  split; [exact (conj Hid (conj Hl (conj Hdata Hrecords)))|].
  destruct (X13_onFocusChanged_reveals_parent loaded.1 (Some "lib") loaded.2)
    as (_ & _ & Hparent).
  exact (Hparent "lib" doc doc 1%positive eq_refl Hid Hl Hdata Hrecords).
Defined.

(** X14 on a loaded document: its path stays ['ready'] under
    [onSorted]. *)
Lemma X14_witness :
  let r := reducer (Some loaded.1) (onSorted "id") loaded.2 in
  (dataPaths loaded.1 !! "stats.json" = Some (value ready)
   ∧ ∀ err : string, onSorted "id" ≠ erroredAtPath "stats.json" err)
  ∧ dataPaths r.1 !! "stats.json" = Some (value ready).
Proof.
  cbv zeta.
  assert (Hready : dataPaths loaded.1 !! "stats.json" = Some (value ready))
    by (by vm_compute).
  assert (Hnot : ∀ err : string,
            onSorted "id" ≠ erroredAtPath "stats.json" err)
    by (intros err; discriminate).
  split; [exact (conj Hready Hnot)|].
  destruct (X14_status_is_kept loaded.1 (onSorted "id") loaded.2 "stats.json")
    as [_ Hkept].
  exact (Hkept Hready Hnot).
Defined.

(** X15 on a loaded document: it stays in the table when another file
    is picked. *)
Lemma X15_witness :
  let r := reducer (Some loaded.1) (pickDataPath "other.json") loaded.2 in
  (read_table loaded.2 (json loaded.1) !! "stats.json" = Some doc
   ∧ ∀ stats : RawStats,
       pickDataPath "other.json" ≠ loadedStatsAtPath "stats.json" stats)
  ∧ read_table r.2 (json r.1) !! "stats.json" = Some doc.
Proof.
  cbv zeta.
  assert (Hdoc : read_table loaded.2 (json loaded.1) !! "stats.json"
                 = Some doc) by (by vm_compute).
  assert (Hnot : ∀ stats : RawStats,
            pickDataPath "other.json" ≠ loadedStatsAtPath "stats.json" stats)
    by (intros stats; discriminate).
  split; [exact (conj Hdoc Hnot)|].
  exact (X15_documents_are_kept loaded.1 (pickDataPath "other.json") loaded.2
           "stats.json" doc Hdoc Hnot).
Defined.

(** X17 on [INITIAL_STATE]: a path the table does not know is
    ['loading'] once requested. *)
Lemma X17_witness :
  let r := reducer (Some INITIAL_STATE) (requestedDataAtPath "stats.json")
             initial_world in
  dataPaths INITIAL_STATE !! "stats.json" ≠ Some (value ready)
  ∧ dataPaths r.1 !! "stats.json" = Some (value loading).
Proof.
  cbv zeta.
  assert (Hnot : dataPaths INITIAL_STATE !! "stats.json" ≠ Some (value ready))
    by discriminate.
  split; [exact Hnot|].
  destruct (X17_requestedDataAtPath_marks_loading INITIAL_STATE "stats.json"
              initial_world) as (Hloading & _).
  exact (Hloading Hnot).
Defined.

(** X20 on a loaded document: [onCollapseRecords] leaves the state it is
    given as it was. *)
Lemma X20_witness :
  let r := reducer (Some loaded.1) (onCollapseRecords (IdStr "a")) loaded.2 in
  wf_state loaded.2 loaded.1
  ∧ state_value r.2 loaded.1 = state_value loaded.2 loaded.1.
Proof.
  cbv zeta. split; [exact loaded_wf|].
  destruct (X20_input_state_after loaded.1 (onCollapseRecords (IdStr "a"))
              loaded.2 loaded_wf) as (Hsame & _).
  exact Hsame.
Defined.

(** X21 from [INITIAL_STATE]: picking and loading in either order. *)
Lemma X21_witness :
  let picked := reducer (Some INITIAL_STATE) (pickDataPath "stats.json")
                  initial_world in
  let picked_loaded :=
    reducer (Some picked.1) (loadedStatsAtPath "stats.json" doc) picked.2 in
  let loaded := reducer (Some INITIAL_STATE)
                  (loadedStatsAtPath "stats.json" doc) initial_world in
  let loaded_picked :=
    reducer (Some loaded.1) (pickDataPath "stats.json") loaded.2 in
  (wf_state initial_world INITIAL_STATE ∧ "stats.json" ≠ "")
  ∧ derived_value picked_loaded.2 picked_loaded.1
    = Some (fullModuleData (value doc) None [])
  ∧ derived_value loaded_picked.2 loaded_picked.1
    = Some (fullModuleData (value doc) None []).
Proof.
  cbv zeta.
  assert (Hpath : "stats.json" ≠ "") by discriminate.
  split; [exact (conj initial_wf Hpath)|].
  exact (X21_pick_and_load_commute INITIAL_STATE "stats.json" doc
           initial_world initial_wf Hpath).
Defined.

End Examples.
